(** * A shallow embedding of [server.py]: a static-file HTTP server

    The development follows the source file top-down.

    - [PyStr] and [PosixPath] embed the Python string and [os.path]
      operations the server calls ([str.split], [str.upper], [str.lower],
      [os.path.join], [os.path.normpath], [os.path.splitext],
      [urllib.parse.unquote]).
    - [FS] is the part of the file system the server observes.
    - [Py] is a small state-and-exception monad with Python's
      [try/except/finally].
    - [HttpServer] embeds the class of the same name, method by method.

    Python text is modelled as a byte string (its UTF-8 encoding), so
    [str.encode('utf-8')] is the identity on the model. *)

From Stdlib Require Import String Ascii List Bool Arith ZArith Lia.
From Stdlib.Strings Require Import Byte.
From Stdlib Require Import DecimalString DecimalNat.
From Equations Require Import Equations.
Import ListNotations.

Set Implicit Arguments.
Local Open Scope string_scope.
Local Open Scope nat_scope.

(* ===================================================================== *)
(** ** Python string operations                                           *)
(* ===================================================================== *)

Module PyStr.

(** [s[1:]] *)
Definition tail (s : string) : string :=
  match s with
  | EmptyString => EmptyString
  | String _ r => r
  end.

(** [s.startswith(c)] for a one-character [c] *)
Definition startswith (c : ascii) (s : string) : bool :=
  match s with
  | String a _ => Ascii.eqb a c
  | EmptyString => false
  end.

(** [s.endswith(c)] for a one-character [c] *)
Fixpoint endswith (c : ascii) (s : string) : bool :=
  match s with
  | EmptyString => false
  | String a EmptyString => Ascii.eqb a c
  | String _ r => endswith c r
  end.

(** [s.split(sep)] for a one-character [sep]: never the empty list *)
Fixpoint split (sep : ascii) (s : string) : list string :=
  match s with
  | EmptyString => [EmptyString]
  | String c r =>
      if Ascii.eqb c sep then EmptyString :: split sep r
      else match split sep r with
           | h :: t => String c h :: t
           | [] => [String c EmptyString]
           end
  end.

(** [sep.join(parts)] *)
Fixpoint join (sep : string) (parts : list string) : string :=
  match parts with
  | [] => EmptyString
  | [p] => p
  | p :: ps => p ++ sep ++ join sep ps
  end.

Definition is_upper (c : ascii) : bool :=
  let n := nat_of_ascii c in (65 <=? n) && (n <=? 90).

Definition is_lower (c : ascii) : bool :=
  let n := nat_of_ascii c in (97 <=? n) && (n <=? 122).

Definition lower_char (c : ascii) : ascii :=
  if is_upper c then ascii_of_nat (nat_of_ascii c + 32) else c.

Definition upper_char (c : ascii) : ascii :=
  if is_lower c then ascii_of_nat (nat_of_ascii c - 32) else c.

Fixpoint map_chars (f : ascii -> ascii) (s : string) : string :=
  match s with
  | EmptyString => EmptyString
  | String c r => String (f c) (map_chars f r)
  end.

(** [s.lower()] and [s.upper()]: the ASCII letters change case, every
    other byte is kept.  (No character outside ASCII has an upper case
    among G, E, T or a lower case among the letters of the supported
    extensions, so the comparisons the server makes are not affected.) *)
Definition lower : string -> string := map_chars lower_char.
Definition upper : string -> string := map_chars upper_char.

(** [s.rfind(c)]: the highest index of [c] in [s], or -1 *)
Fixpoint rfind_from (c : ascii) (s : string) (i : Z) (found : Z) : Z :=
  match s with
  | EmptyString => found
  | String a r => rfind_from c r (i + 1) (if Ascii.eqb a c then i else found)
  end.

Definition rfind (c : ascii) (s : string) : Z := rfind_from c s 0 (-1).

(** [s[:i]] and [s[i:]] for [0 <= i] *)
Definition take (i : Z) (s : string) : string := substring 0 (Z.to_nat i) s.
Definition drop (i : Z) (s : string) : string :=
  substring (Z.to_nat i) (String.length s - Z.to_nat i) s.

(** [s[i:i+1]] *)
Definition char_at (i : Z) (s : string) : string := substring (Z.to_nat i) 1 s.

(** [str.split()] without argument, used by nothing in the source: kept
    for comparison with [split " "].  Runs of white space separate the
    tokens and no token is empty. *)
Definition is_space (c : ascii) : bool :=
  let n := nat_of_ascii c in ((9 <=? n) && (n <=? 13)) || ((28 <=? n) && (n <=? 32)).

Fixpoint split_whitespace_from (cur : string) (s : string) : list string :=
  match s with
  | EmptyString => match cur with EmptyString => [] | _ => [cur] end
  | String c r =>
      if is_space c then
        match cur with
        | EmptyString => split_whitespace_from EmptyString r
        | _ => cur :: split_whitespace_from EmptyString r
        end
      else split_whitespace_from (cur ++ String c EmptyString) r
  end.

Definition split_whitespace (s : string) : list string :=
  split_whitespace_from EmptyString s.

(** Decimal rendering of a natural number, [str(n)] *)
Definition str_of_nat (n : nat) : string := NilZero.string_of_uint (Nat.to_uint n).

Definition hex_digit (c : ascii) : option nat :=
  let n := nat_of_ascii c in
  if (48 <=? n) && (n <=? 57) then Some (n - 48)
  else if (65 <=? n) && (n <=? 70) then Some (n - 55)
  else if (97 <=? n) && (n <=? 102) then Some (n - 87)
  else None.

(** [urllib.parse.unquote]: every [%XY] with two hexadecimal digits is
    replaced by the byte it names; a [%] not followed by two hexadecimal
    digits is kept.  (Python then decodes the bytes as UTF-8 and puts
    U+FFFD for invalid sequences; the model agrees with it on every
    string whose decoded bytes are valid UTF-8.) *)
Fixpoint unquote (s : string) : string :=
  match s with
  | EmptyString => EmptyString
  | String c rest =>
      if Ascii.eqb c "%" then
        match rest with
        | String a (String b rest') =>
            match hex_digit a, hex_digit b with
            | Some x, Some y => String (ascii_of_nat (16 * x + y)) (unquote rest')
            | _, _ => String c (unquote rest)
            end
        | _ => String c (unquote rest)
        end
      else String c (unquote rest)
  end.

End PyStr.

(* ===================================================================== *)
(** ** [os.path] on POSIX                                                 *)
(* ===================================================================== *)

Module PosixPath.

Definition sep : ascii := "/".

(** [os.path.join(a, b)] *)
Definition join (a b : string) : string :=
  if PyStr.startswith sep b then b
  else if (String.eqb a "") || PyStr.endswith sep a then a ++ b
  else a ++ "/" ++ b.

Definition is_nil {A} (l : list A) : bool :=
  match l with [] => true | _ => false end.

(** one iteration of the loop of [normpath] over the components *)
Definition normpath_step (initial_slashes : nat) (new_comps : list string)
           (comp : string) : list string :=
  if (String.eqb comp "") || (String.eqb comp ".") then new_comps
  else if negb (String.eqb comp "..")
          || ((initial_slashes =? 0) && is_nil new_comps)
          || (negb (is_nil new_comps) && String.eqb (last new_comps "") "..")
       then (new_comps ++ [comp])%list
       else if negb (is_nil new_comps) then removelast new_comps
            else new_comps.

(** [initial_slashes] of [normpath]: POSIX keeps exactly two leading
    slashes and treats three or more as one *)
Definition initial_slashes (path : string) : nat :=
  if PyStr.startswith sep path then
    if PyStr.startswith sep (PyStr.tail path)
       && negb (PyStr.startswith sep (PyStr.tail (PyStr.tail path)))
    then 2 else 1
  else 0.

(** the list [new_comps] of [normpath] when its loop ends *)
Definition normpath_comps (path : string) : list string :=
  fold_left (normpath_step (initial_slashes path)) (PyStr.split sep path) [].

(** [os.path.normpath(path)] *)
Definition normpath (path : string) : string :=
  if String.eqb path "" then "."
  else
    let comps := normpath_comps path in
    let path' := PyStr.join "/" comps in
    let path' := PyStr.join "" (repeat "/" (initial_slashes path)) ++ path' in
    if String.eqb path' "" then "." else path'.

(** the loop of [genericpath._splitext] that skips the leading dots of
    the file name: [true] when a character other than a dot stands in
    [p[filenameIndex:dotIndex]] *)
Fixpoint has_non_dot (p : string) (filenameIndex : Z) (n : nat) : bool :=
  match n with
  | O => false
  | S n' =>
      if negb (String.eqb (PyStr.char_at filenameIndex p) ".") then true
      else has_non_dot p (filenameIndex + 1) n'
  end.

(** [os.path.splitext(p)] *)
Definition splitext (p : string) : string * string :=
  let sepIndex := PyStr.rfind sep p in
  let dotIndex := PyStr.rfind "." p in
  if (sepIndex <? dotIndex)%Z
     && has_non_dot p (sepIndex + 1) (Z.to_nat (dotIndex - (sepIndex + 1)))
  then (PyStr.take dotIndex p, PyStr.drop dotIndex p)
  else (p, "").

End PosixPath.

(* ===================================================================== *)
(** ** The file system seen by the server                                 *)
(* ===================================================================== *)

Module FS.

(** A node is a regular file or a directory; [readable] says whether the
    server process may read it. *)
Inductive Node : Type :=
| File (readable : bool) (content : list byte)
| Dir (readable : bool) (st_size : nat).

(** [nodes] is keyed by absolute normalized path; a relative path is
    taken from [cwd], the working directory of the process. *)
Record t : Type := mk {
  cwd : string;
  nodes : list (string * Node)
}.

Fixpoint assoc (k : string) (l : list (string * Node)) : option Node :=
  match l with
  | [] => None
  | (k', n) :: r => if String.eqb k k' then Some n else assoc k r
  end.

Definition abspath (fs : t) (p : string) : string :=
  PosixPath.normpath (PosixPath.join (cwd fs) p).

Definition lookup (fs : t) (p : string) : option Node :=
  assoc (abspath fs p) (nodes fs).

(** [os.path.exists(p)] *)
Definition path_exists (fs : t) (p : string) : bool :=
  match lookup fs p with Some _ => true | None => false end.

(** [os.access(p, os.R_OK)] *)
Definition access_R_OK (fs : t) (p : string) : bool :=
  match lookup fs p with
  | Some (File r _) => r
  | Some (Dir r _) => r
  | None => false
  end.

End FS.

(* ===================================================================== *)
(** ** [datetime.utcnow().strftime(...)]                                  *)
(* ===================================================================== *)

Module Clock.

(** A [datetime]: [1 <= year <= 9999], [1 <= month <= 12],
    [1 <= day <= 31], [hour < 24], [minute < 60], [second < 60]. *)
Record DateTime : Type := mk {
  year : nat; month : nat; day : nat;
  hour : nat; minute : nat; second : nat
}.

Definition digit (n : nat) : ascii := ascii_of_nat (48 + n mod 10).

(** [%d], [%H], [%M], [%S]: two digits, zero padded *)
Definition pad2 (n : nat) : string :=
  String (digit (n / 10)) (String (digit n) EmptyString).

(** [%Y]: four digits *)
Definition pad4 (n : nat) : string :=
  String (digit (n / 1000)) (String (digit (n / 100)) (pad2 n)).

Definition day_abbr : list string :=
  ["Mon"; "Tue"; "Wed"; "Thu"; "Fri"; "Sat"; "Sun"].

Definition month_abbr : list string :=
  ["Jan"; "Feb"; "Mar"; "Apr"; "May"; "Jun";
   "Jul"; "Aug"; "Sep"; "Oct"; "Nov"; "Dec"].

Definition is_leap (y : nat) : bool :=
  ((y mod 4 =? 0) && negb (y mod 100 =? 0)) || (y mod 400 =? 0).

Definition days_before_year (y : nat) : nat :=
  let y1 := y - 1 in y1 * 365 + y1 / 4 - y1 / 100 + y1 / 400.

Definition days_before_month (y m : nat) : nat :=
  nth (m - 1) [0; 31; 59; 90; 120; 151; 181; 212; 243; 273; 304; 334] 0
  + (if (2 <? m) && is_leap y then 1 else 0).

(** [date.toordinal()] and [date.weekday()] (Monday is 0) *)
Definition toordinal (d : DateTime) : nat :=
  days_before_year (year d) + days_before_month (year d) (month d) + day d.

Definition weekday (d : DateTime) : nat := (toordinal d + 6) mod 7.

(** [d.strftime("%a, %d %b %Y %H:%M:%S GMT")] in the C locale *)
Definition strftime_rfc1123 (d : DateTime) : string :=
  nth (weekday d) day_abbr "Mon" ++ ", " ++ pad2 (day d) ++ " "
  ++ nth ((month d - 1) mod 12) month_abbr "Jan" ++ " " ++ pad4 (year d) ++ " "
  ++ pad2 (hour d) ++ ":" ++ pad2 (minute d) ++ ":" ++ pad2 (second d)
  ++ " GMT".

End Clock.

(* ===================================================================== *)
(** ** State, exceptions and the observable events                        *)
(* ===================================================================== *)

Module Py.

(** The exceptions the server can meet. *)
Inductive Exn : Type :=
| FileNotFoundError (path : string)
| PermissionError (path : string)
| IsADirectoryError (path : string)
| BrokenPipeError
| OSError (errno : nat)
| UnboundLocalError (name : string).

(** [isinstance(e, OSError)] and [e.errno] *)
Definition os_errno (e : Exn) : option nat :=
  match e with
  | FileNotFoundError _ => Some 2
  | PermissionError _ => Some 13
  | IsADirectoryError _ => Some 21
  | BrokenPipeError => Some 32
  | OSError n => Some n
  | UnboundLocalError _ => None
  end.

(** What a run of the handler does that can be seen from outside, in
    the order it happens.  The [Call_*] events only record that a method
    was entered, with its arguments. *)
Inductive Event : Type :=
| Print (line : string)
| PrintExn (prefix : string) (e : Exn)
| Write (data : list byte)
| Open (path : string)
| Close (path : string)
| SetTimeout (seconds : nat)
| Sleep (seconds : nat)
| SockClose
| Call_get_file_path (file_name : string)
| Call_serve_file (file_path responsecode http_version : string).

Record World : Type := mkWorld {
  events : list Event;
  open_files : list string;          (* file objects not yet closed *)
  sock_open : bool;                  (* the client socket *)
  sock_timeout : option nat;
  budget : nat;                      (* writes the peer still accepts *)
  connected_clients : list string    (* the class attribute, a set *)
}.

(** The world of a handler whose connection was just accepted. *)
Definition accepted (budget : nat) (clients : list string) : World :=
  mkWorld [] [] true None budget clients.

Definition M (A : Type) : Type := World -> (Exn + A) * World.

Definition ret {A} (x : A) : M A := fun w => (inr x, w).

Definition bind {A B} (c : M A) (k : A -> M B) : M B :=
  fun w => match c w with
           | (inl e, w') => (inl e, w')
           | (inr x, w') => k x w'
           end.

Definition raise {A} (e : Exn) : M A := fun w => (inl e, w).

(** [try: c  except Exception as e: h e] *)
Definition try_except {A} (c : M A) (h : Exn -> M A) : M A :=
  fun w => match c w with
           | (inl e, w') => h e w'
           | (inr x, w') => (inr x, w')
           end.

(** [try: c  finally: f] *)
Definition try_finally {A} (c : M A) (f : M unit) : M A :=
  fun w => match c w with
           | (r, w') =>
               match f w' with
               | (inl e, w'') => (inl e, w'')
               | (inr _, w'') => (r, w'')
               end
           end.

Definition log (e : Event) : M unit :=
  fun w => (inr tt,
            mkWorld (events w ++ [e]) (open_files w) (sock_open w)
                    (sock_timeout w) (budget w) (connected_clients w)).

Definition print (line : string) : M unit := log (Print line).

Definition print_exn (prefix : string) (e : Exn) : M unit := log (PrintExn prefix e).

(** [time.sleep(n)] *)
Definition sleep (n : nat) : M unit := log (Sleep n).

Fixpoint remove_first (p : string) (l : list string) : list string :=
  match l with
  | [] => []
  | q :: r => if String.eqb p q then r else q :: remove_first p r
  end.

(** An open binary file: its path and the bytes not yet read. *)
Record Handle : Type := mkHandle { h_path : string; h_rest : list byte }.

(** [open(path, 'rb')] *)
Definition open_rb (fs : FS.t) (path : string) : M Handle :=
  fun w =>
    match FS.lookup fs path with
    | None => (inl (FileNotFoundError path), w)
    | Some (FS.Dir _ _) => (inl (IsADirectoryError path), w)
    | Some (FS.File false _) => (inl (PermissionError path), w)
    | Some (FS.File true content) =>
        (inr (mkHandle path content),
         mkWorld (events w ++ [Open path]) (path :: open_files w) (sock_open w)
                 (sock_timeout w) (budget w) (connected_clients w))
    end.

(** [f.read(n)]: the next [n] bytes, fewer at the end of the file *)
Definition read (n : nat) (f : Handle) : list byte * Handle :=
  (firstn n (h_rest f), mkHandle (h_path f) (skipn n (h_rest f))).

Lemma read_length (n : nat) (f : Handle) :
  List.length (fst (read n f)) + List.length (h_rest (snd (read n f)))
  = List.length (h_rest f).
Proof.
  unfold read; cbn [fst snd h_rest].
  rewrite <- length_app, firstn_skipn. reflexivity.
Qed.

(** [f.close()] *)
Definition close (f : Handle) : M unit :=
  fun w => (inr tt,
            mkWorld (events w ++ [Close (h_path f)])
                    (remove_first (h_path f) (open_files w)) (sock_open w)
                    (sock_timeout w) (budget w) (connected_clients w)).

(** [os.path.getsize(path)] *)
Definition getsize (fs : FS.t) (path : string) : M nat :=
  match FS.lookup fs path with
  | Some (FS.File _ content) => ret (List.length content)
  | Some (FS.Dir _ st_size) => ret st_size
  | None => raise (FileNotFoundError path)
  end.

(** [out_file.write(data)] on the unbuffered socket file: the peer
    takes the data, or the transport fails for this and every later
    write once [budget] is used up. *)
Definition out_write (data : list byte) : M unit :=
  fun w =>
    match budget w with
    | O => (inl BrokenPipeError, w)
    | S b => (inr tt,
              mkWorld (events w ++ [Write data]) (open_files w) (sock_open w)
                      (sock_timeout w) b (connected_clients w))
    end.

(** [connect.settimeout(t)] *)
Definition settimeout (t : nat) : M unit :=
  fun w => (inr tt,
            mkWorld (events w ++ [SetTimeout t]) (open_files w) (sock_open w)
                    (Some t) (budget w) (connected_clients w)).

(** Leaving [with self.connect, in_file, out_file:] and
    [connect.close()]: the socket is closed (once). *)
Definition sock_close : M unit :=
  fun w => (inr tt,
            if sock_open w then
              mkWorld (events w ++ [SockClose]) (open_files w) false
                      (sock_timeout w) (budget w) (connected_clients w)
            else w).

(** [connect.getpeername()[0]]: errno 9 (EBADF) on a closed socket *)
Definition getpeername (peer_ip : string) : M string :=
  fun w => if sock_open w then (inr peer_ip, w) else (inl (OSError 9), w).

Definition set_clients (f : list string -> list string) : M unit :=
  fun w => (inr tt,
            mkWorld (events w) (open_files w) (sock_open w)
                    (sock_timeout w) (budget w) (f (connected_clients w))).

Definition get_clients : M (list string) :=
  fun w => (inr (connected_clients w), w).

Definition when (b : bool) (c : M unit) : M unit := if b then c else ret tt.

End Py.

Declare Scope py_scope.
Delimit Scope py_scope with py.
Notation "x <- c1 ;; c2" := (Py.bind c1 (fun x => c2))
  (at level 61, c1 at next level, right associativity) : py_scope.
Notation "c1 ;; c2" := (Py.bind c1 (fun _ => c2))
  (at level 61, right associativity) : py_scope.

(* ===================================================================== *)
(** ** [server.py]                                                        *)
(* ===================================================================== *)

(** [get_file_type(filepath)] *)
Definition get_file_type (filepath : string) : string :=
  let '(_, file_extension) := PosixPath.splitext filepath in
  PyStr.lower file_extension.

Module HttpServer.

Import Py.
Local Open Scope py_scope.

Definition DEFAULT_FILE : string := "index.html".
Definition BAD_REQUEST : string := "error/400.html".
Definition FORBIDDEN : string := "error/403.html".
Definition FILE_NOT_FOUND : string := "error/404.html".
Definition METHOD_NOT_SUPPORTED : string := "error/501.html".

(** The attributes [__init__] stores in [self]; [self.connect] is the
    socket of the [World]. *)
Record t : Type := mk {
  document_root : string;
  protocol : string;
  timeout : nat;
  debug : bool
}.

(** What the handler reads from its surroundings and never changes:
    the file system, the clock, the table of [mimetypes], the address of
    the peer and the name of the running thread. *)
Record Env : Type := mkEnv {
  fs : FS.t;
  utcnow : Clock.DateTime;
  guess_type : string -> option string;
  peer_ip : string;
  thread_name : string
}.

(** [__init__], the part after the attributes are stored; [connect] is
    [false] for the listening instance, built with [None] *)
Definition init (connect : bool) (env : Env) : M unit :=
  when connect
       (client_ip <- getpeername (peer_ip env) ;;
        clients <- get_clients ;;
        if existsb (String.eqb client_ip) clients then ret tt
        else set_clients (cons client_ip) ;;
             print ("Connection opened: " ++ client_ip)).

Definition supported_types : list string :=
  [".pdf"; ".jpeg"; ".jpg"; ".png"; ".txt"; ".gif"; ".html"; ".mp4";
   ".json"; ""; ".js"; ".css"].

(** [is_file_supported(filepath)] *)
Definition is_file_supported (filepath : string) : bool :=
  let '(_, file_extension) := PosixPath.splitext filepath in
  let file_type := PyStr.lower file_extension in
  existsb (String.eqb file_type) supported_types.

(** [get_file_path(file_name)] *)
Definition get_file_path (fs : FS.t) (self : t) (file_name : string)
  : option string :=
  let file_name :=
    if String.eqb file_name "/" then DEFAULT_FILE
    else PyStr.tail file_name in
  let file_path :=
    PosixPath.normpath (PosixPath.join (document_root self) file_name) in
  if FS.path_exists fs file_path then Some file_path else None.

(** [get_current_date()] *)
Definition get_current_date (env : Env) : string :=
  Clock.strftime_rfc1123 (utcnow env).

(** [str(content_type)]: [None] prints as the word None *)
Definition format_optional (x : option string) : string :=
  match x with Some s => s | None => "None" end.

(** the list [headers] of [serve_file] *)
Definition headers (env : Env) (file_path responsecode http_version : string)
           (size : nat) : list string :=
  [ http_version ++ " " ++ responsecode;
    "Server: Python HTTP Server";
    "Date: " ++ get_current_date env;
    "Content-type: " ++ format_optional (guess_type env file_path);
    "Content-length: " ++ PyStr.str_of_nat size;
    "";
    "" ].

Definition CRLF : string := String "013" (String "010" EmptyString).

(** the loop [while chunk: out_file.write(chunk); chunk = error_file.read(4096)] *)
Local Opaque read.

Equations? stream (chunk : list byte) (error_file : Handle) (w : World)
  : (Exn + unit) * World
  by wf (List.length chunk + List.length (h_rest error_file)) lt :=
  stream [] _ w := (inr tt, w);
  stream (b :: bs) error_file w with out_write (b :: bs) w := {
    | (inl e, w') := (inl e, w');
    | (inr _, w') :=
        stream (fst (read 4096 error_file)) (snd (read 4096 error_file)) w' }.
Proof.
  rewrite read_length. lia.
Qed.

Local Transparent read.

(** the [try] block of [serve_file] once [error_file] is bound *)
Definition serve_file_body (self : t) (env : Env)
           (file_path responsecode http_version : string)
           (error_file : Handle) : M unit :=
  let content_type := guess_type env file_path in
  size <- getsize (fs env) file_path ;;
  out_write (list_byte_of_string
               (PyStr.join CRLF
                  (headers env file_path responsecode http_version size))) ;;
  when (String.eqb http_version "HTTP/1.0") (settimeout (timeout self)) ;;
  let '(chunk, error_file) := read 4096 error_file in
  stream chunk error_file.

(** [serve_file(out_file, file_path, responsecode, http_version)].
    The local [error_file] is bound only when [open] returns; [finally]
    reads it whether or not it is bound. *)
Definition serve_file (self : t) (env : Env)
           (file_path responsecode http_version : string) : M unit :=
  fun w =>
    let '(_, w) := log (Call_serve_file file_path responsecode http_version) w in
    (* try: *)
    let '(error_file, (r, w)) :=
      match open_rb (fs env) file_path w with
      | (inl e, w') => (None, (inl e, w'))
      | (inr f, w') =>
          (Some f, serve_file_body self env file_path responsecode http_version f w')
      end in
    (* except Exception as e: *)
    let '(_, w) :=
      match r with
      | inl e => print_exn "Error serving file: " e w
      | inr _ => (inr tt, w)
      end in
    (* finally: error_file.close() *)
    match error_file with
    | None => (inl (UnboundLocalError "error_file"), w)
    | Some f => close f w
    end.

Definition bad_request (self : t) (env : Env) (visited_url : string) : M unit :=
  print ("HTTP 400 Error: " ++ visited_url ++ " Bad Request!") ;;
  serve_file self env BAD_REQUEST "400 BadRequest" "HTTP/1.1".

Definition file_not_found (self : t) (env : Env) (file_name : string) : M unit :=
  print ("HTTP 404 Error: " ++ file_name ++ " cannot be found!") ;;
  serve_file self env FILE_NOT_FOUND "404 FileNotFound" "HTTP/1.1".

Definition file_forbidden (self : t) (env : Env) (file_name : string) : M unit :=
  print ("HTTP 403 Error: " ++ file_name ++ " Forbidden (No permission)") ;;
  serve_file self env FORBIDDEN "403 Forbidden" "HTTP/1.1".

Definition method_not_supported (self : t) (env : Env) (http_method : string)
  : M unit :=
  print ("HTTP 501 Error: " ++ http_method ++ " HTTP method not implemented!") ;;
  serve_file self env METHOD_NOT_SUPPORTED "501 NotImplemented" "HTTP/1.1".

(** [close_connection()] *)
Definition close_connection (env : Env) : M unit :=
  try_except
    (client_ip <- getpeername (peer_ip env) ;;
     sock_close ;;
     clients <- get_clients ;;
     when (existsb (String.eqb client_ip) clients)
          (set_clients (remove_first client_ip) ;;
           print ("Connection closed: " ++ client_ip)))
    (fun e =>
       match os_errno e with
       | Some errno =>
           when (negb (errno =? 9)) (print_exn "Error closing connection: " e)
       | None => raise e
       end).

(** [run], from the debug print of [file_name] to the end of the [with]
    block: what is done with the parsed request *)
Definition dispatch (self : t) (env : Env) (http_method file_name : string)
  : M unit :=
  when (debug self) (print ("file_name " ++ file_name)) ;;
  if negb (String.eqb (PyStr.upper http_method) "GET")
     || negb (is_file_supported file_name)
  then bad_request self env http_method
  else
    log (Call_get_file_path file_name) ;;
    match get_file_path (fs env) self file_name with
    | None => file_not_found self env file_name
    | Some file_path =>
        if negb (FS.access_R_OK (fs env) file_path)
        then file_forbidden self env file_name
        else
          let http_version := "HTTP/" ++ protocol self in
          when (debug self)
               (print ("Current thread name is " ++ thread_name env
                       ++ " and file opened " ++ file_path)) ;;
          serve_file self env file_path "200 OK" http_version ;;
          when (String.eqb http_version "HTTP/1.0")
               (sleep 2 ;; print "Connection closed for HTTP/1.0")
    end.

(** the body of the [with] statement of [run]; [visited_url] is the line
    [in_file.readline()] returned, its line end included *)
Definition run_body (self : t) (env : Env) (visited_url : string) : M unit :=
  let request_parts := PyStr.split " " visited_url in
  if List.length request_parts <? 2 then
    print "Invalid request" ;;
    bad_request self env visited_url
  else
    let http_method := nth 0 request_parts "" in
    let file_name := PyStr.unquote (nth 1 request_parts "") in
    dispatch self env http_method file_name.

(** [run()] *)
Definition run (self : t) (env : Env) (visited_url : string) : M unit :=
  try_finally
    (try_except
       (try_finally (run_body self env visited_url) sock_close)
       (fun e => print_exn "Server error: " e))
    (close_connection env).

End HttpServer.

(* ===================================================================== *)
(** * Properties                                                          *)
(* ===================================================================== *)

Import Py HttpServer.

(** ** Normalization *)





(** ** A small site used for the concrete runs *)

Definition LF : string := String "010" EmptyString.

Definition demo_fs : FS.t :=
  FS.mk "/home/app"
    [ ("/srv", FS.Dir true 4096);
      ("/srv/index.html", FS.File true (list_byte_of_string "<html></html>"));
      ("/srv/a.txt", FS.File true (list_byte_of_string "hello"));
      ("/srv/secret.txt", FS.File false (list_byte_of_string "s3cr3t"));
      ("/etc/passwd", FS.File true (list_byte_of_string "root:x:0:0"));
      ("/home/app/error/400.html", FS.File true (list_byte_of_string "bad request"));
      ("/home/app/error/404.html", FS.File true (list_byte_of_string "not found")) ].

Definition demo_mime (path : string) : option string :=
  match get_file_type path with
  | ".txt" => Some "text/plain"
  | ".html" => Some "text/html"
  | _ => None
  end.

Definition demo_env : Env :=
  mkEnv demo_fs (Clock.mk 2026 11 3 9 5 7) demo_mime "192.0.2.7" "Thread-1".

Definition demo_10 : HttpServer.t := HttpServer.mk "/srv" "1.0" 10 false.
Definition demo_11 : HttpServer.t := HttpServer.mk "/srv" "1.1" 10 false.

(** ** Path resolution *)

(** [true] when [p] is the document root or lies below it *)
Definition under_root (root p : string) : bool :=
  let r := PosixPath.normpath root in
  let r' := if PyStr.endswith "/" r then r else r ++ "/" in
  String.eqb p r || String.prefix r' p.







(** C3: a target with a double-dot segment resolves to an existing file
    outside the document root. *)
Theorem get_file_path_escapes_root :
  exists (fs : FS.t) (self : HttpServer.t) (rawTarget p : string),
    In ".." (PyStr.split "/" rawTarget)
    /\ get_file_path fs self rawTarget = Some p
    /\ FS.path_exists fs p = true
    /\ under_root (document_root self) p = false.
Proof.
  exists demo_fs, demo_11, "/../etc/passwd", "/etc/passwd".
  repeat split; vm_compute; auto.
Qed.

(** ** Streaming the body *)

Definition chunk_size : nat := 4096.

Lemma chunk_size_pos : 0 < chunk_size.
Proof. unfold chunk_size. lia. Qed.

(** The world after the events [evs], with the socket timeout and the
    write budget as given and everything else as in [w]. *)
Definition after (w : World) (evs : list Event) (tmo : option nat) (b : nat) : World :=
  mkWorld (events w ++ evs) (open_files w) (sock_open w) tmo b (connected_clients w).

Lemma stream_nil (f : Handle) (w : World) : stream [] f w = (inr tt, w).
Proof. apply stream_equation_1. Qed.

Lemma stream_cons (b : byte) (bs : list byte) (f : Handle) (w : World) :
  stream (b :: bs) f w =
  match budget w with
  | O => (inl BrokenPipeError, w)
  | S n => stream (firstn chunk_size (h_rest f))
                  (mkHandle (h_path f) (skipn chunk_size (h_rest f)))
                  (after w [Write (b :: bs)] (sock_timeout w) n)
  end.
Proof.
  rewrite stream_equation_2. unfold out_write.
  destruct (budget w).
  - apply stream_clause_2_equation_1.
  - rewrite stream_clause_2_equation_2. reflexivity.
Qed.

Global Opaque chunk_size.

(** The chunks [read(4096)] returns one after the other on a file that
    holds [data]; [fuel] bounds their number. *)
Fixpoint chunks_upto (fuel : nat) (data : list byte) : list (list byte) :=
  match fuel with
  | O => []
  | S k =>
      match data with
      | [] => []
      | _ :: _ => firstn chunk_size data :: chunks_upto k (skipn chunk_size data)
      end
  end.

Definition chunks (data : list byte) : list (list byte) :=
  chunks_upto (List.length data) data.

Lemma skipn_chunk_shorter (d : byte) (ds : list byte) (k : nat) :
  List.length (d :: ds) <= S k -> List.length (skipn chunk_size (d :: ds)) <= k.
Proof.
  intros H. rewrite length_skipn. pose proof chunk_size_pos. lia.
Qed.

Lemma chunks_upto_fuel (fuel fuel' : nat) (data : list byte) :
  List.length data <= fuel -> List.length data <= fuel' ->
  chunks_upto fuel data = chunks_upto fuel' data.
Proof.
  revert fuel' data. induction fuel as [|k IH]; intros fuel' data H H'.
  - destruct data; [|cbn in H; lia]. destruct fuel'; reflexivity.
  - destruct data as [|d ds]; [destruct fuel'; reflexivity|].
    destruct fuel' as [|k']; [cbn in H'; lia|].
    cbn [chunks_upto]. f_equal.
    apply IH; apply skipn_chunk_shorter; assumption.
Qed.

Lemma chunks_cons (d : byte) (ds : list byte) :
  chunks (d :: ds)
  = firstn chunk_size (d :: ds) :: chunks (skipn chunk_size (d :: ds)).
Proof.
  unfold chunks at 1. cbn [List.length chunks_upto]. f_equal.
  apply chunks_upto_fuel; [|lia].
  apply skipn_chunk_shorter. cbn [List.length]. lia.
Qed.

Lemma chunks_nil : chunks [] = [].
Proof. reflexivity. Qed.

(** Induction over the chunks of a file. *)
Lemma chunks_ind (P : list byte -> Prop) :
  P [] ->
  (forall d ds, P (skipn chunk_size (d :: ds)) -> P (d :: ds)) ->
  forall data, P data.
Proof.
  intros Hnil Hcons data.
  assert (H : forall n data, List.length data <= n -> P data).
  { induction n as [|n IH]; intros [|d ds] Hlen; auto.
    - cbn in Hlen; lia.
    - apply Hcons, IH, skipn_chunk_shorter, Hlen. }
  apply (H (List.length data)). lia.
Qed.

Lemma chunks_concat (data : list byte) : concat (chunks data) = data.
Proof.
  induction data as [|d ds IH] using chunks_ind; [reflexivity|].
  rewrite chunks_cons. cbn [concat]. rewrite IH. apply firstn_skipn.
Qed.

Lemma chunks_bounded (data : list byte) :
  Forall (fun c => c <> [] /\ List.length c <= chunk_size) (chunks data).
Proof.
  induction data as [|d ds IH] using chunks_ind; [constructor|].
  rewrite chunks_cons. constructor; [|exact IH]. split.
  - pose proof chunk_size_pos. destruct chunk_size; [lia | discriminate].
  - rewrite length_firstn. lia.
Qed.

(** every chunk but the last one is full *)
Lemma chunks_full (data : list byte) :
  Forall (fun c => List.length c = chunk_size) (removelast (chunks data)).
Proof.
  induction data as [|d ds IH] using chunks_ind; [constructor|].
  rewrite chunks_cons.
  destruct (skipn chunk_size (d :: ds)) as [|e es] eqn:Hskip.
  - rewrite chunks_nil. constructor.
  - rewrite chunks_cons in *. cbn [removelast] in *.
    constructor; [|exact IH].
    rewrite length_firstn. apply Nat.min_l.
    assert (Hl : List.length (skipn chunk_size (d :: ds)) > 0)
      by (rewrite Hskip; cbn; lia).
    rewrite length_skipn in Hl. lia.
Qed.

Lemma after_after (w : World) (e1 e2 : list Event) (t1 t2 : option nat) (b1 b2 : nat) :
  after (after w e1 t1 b1) e2 t2 b2 = after w (e1 ++ e2) t2 b2.
Proof. unfold after; cbn. rewrite app_assoc. reflexivity. Qed.

(** The loop writes the chunks of the file in order while the transport
    accepts them, and stops with the error of the first refused write. *)
Lemma stream_chunks (data : list byte) :
  forall (path : string) (w : World),
    stream (firstn chunk_size data) (mkHandle path (skipn chunk_size data)) w
    = if List.length (chunks data) <=? budget w
      then (inr tt,
            after w (map Write (chunks data)) (sock_timeout w)
                  (budget w - List.length (chunks data)))
      else (inl BrokenPipeError,
            after w (map Write (firstn (budget w) (chunks data))) (sock_timeout w) 0).
Proof.
  induction data as [|d ds IH] using chunks_ind; intros path w.
  - rewrite firstn_nil, stream_nil, chunks_nil. cbn [List.length Nat.leb map].
    unfold after. rewrite app_nil_r, Nat.sub_0_r. destruct w; reflexivity.
  - rewrite chunks_cons.
    destruct (firstn chunk_size (d :: ds)) as [|c cs] eqn:Hc.
    { pose proof chunk_size_pos. destruct chunk_size; [lia | discriminate]. }
    rewrite stream_cons. cbn [h_rest h_path List.length].
    destruct (budget w) as [|b] eqn:Hb.
    + cbn [Nat.leb firstn map]. unfold after. rewrite app_nil_r, <- Hb.
      destruct w; reflexivity.
    + rewrite IH. cbn [budget after sock_timeout Nat.leb map firstn Nat.sub].
      destruct (List.length (chunks (skipn chunk_size (d :: ds))) <=? b);
        rewrite after_after; reflexivity.
Qed.

(** ** What [serve_file] does *)

(** the exception [open(path, 'rb')] raises, if any *)
Definition open_error (fs : FS.t) (path : string) : option Exn :=
  match FS.lookup fs path with
  | None => Some (FileNotFoundError path)
  | Some (FS.Dir _ _) => Some (IsADirectoryError path)
  | Some (FS.File false _) => Some (PermissionError path)
  | Some (FS.File true _) => None
  end.

(** the bytes of the header block *)
Definition header_block (env : Env) (file_path responsecode http_version : string)
           (size : nat) : list byte :=
  list_byte_of_string
    (PyStr.join CRLF (headers env file_path responsecode http_version size)).

(** the socket timeout [serve_file] leaves behind, and the event for it *)
Definition timeout_after (self : HttpServer.t) (http_version : string)
           (old : option nat) : option nat :=
  if String.eqb http_version "HTTP/1.0" then Some (timeout self) else old.

Definition timeout_events (self : HttpServer.t) (http_version : string) : list Event :=
  if String.eqb http_version "HTTP/1.0" then [SetTimeout (timeout self)] else [].

Lemma serve_file_body_unfold (self : HttpServer.t) (env : Env)
      (file_path responsecode http_version : string) (f : Handle) :
  serve_file_body self env file_path responsecode http_version f
  = (size <- getsize (fs env) file_path ;;
     out_write (header_block env file_path responsecode http_version size) ;;
     when (String.eqb http_version "HTTP/1.0") (settimeout (timeout self)) ;;
     stream (firstn chunk_size (h_rest f))
            (mkHandle (h_path f) (skipn chunk_size (h_rest f))))%py.
Proof. reflexivity. Qed.

Lemma world_eta (w : World) : after w [] (sock_timeout w) (budget w) = w.
Proof. unfold after. rewrite app_nil_r. destruct w; reflexivity. Qed.

(** When [open] fails, the handler of [serve_file] logs the error and the
    [finally] clause then reads the unbound [error_file]. *)
Lemma serve_file_open_fails (self : HttpServer.t) (env : Env)
      (file_path responsecode http_version : string) (e : Exn) (w : World) :
  open_error (fs env) file_path = Some e ->
  serve_file self env file_path responsecode http_version w
  = (inl (UnboundLocalError "error_file"),
     after w [Call_serve_file file_path responsecode http_version;
              PrintExn "Error serving file: " e]
           (sock_timeout w) (budget w)).
Proof.
  unfold open_error, serve_file, open_rb, log, print_exn, after.
  cbn [events open_files sock_open sock_timeout budget connected_clients].
  destruct (FS.lookup (fs env) file_path) as [[[|] content|r sz]|];
    intros [= <-]; cbn [log events open_files sock_open sock_timeout budget
                        connected_clients];
    rewrite <- app_assoc; reflexivity.
Qed.

(** When [open] succeeds: the header block goes out in one write, the
    chunks of the file follow while the transport takes them, and the
    file is closed whatever happened. *)
Lemma serve_file_open_ok (self : HttpServer.t) (env : Env)
      (file_path responsecode http_version : string) (content : list byte)
      (w : World) :
  FS.lookup (fs env) file_path = Some (FS.File true content) ->
  serve_file self env file_path responsecode http_version w
  = let call := Call_serve_file file_path responsecode http_version in
    let hdr := header_block env file_path responsecode http_version
                            (List.length content) in
    let tmo := timeout_after self http_version (sock_timeout w) in
    let cs := chunks content in
    match budget w with
    | O =>
        (inr tt,
         after w [call; Open file_path;
                  PrintExn "Error serving file: " BrokenPipeError;
                  Close file_path] (sock_timeout w) 0)
    | S b =>
        if List.length cs <=? b then
          (inr tt,
           after w ([call; Open file_path; Write hdr]
                    ++ timeout_events self http_version
                    ++ map Write cs ++ [Close file_path])
                 tmo (b - List.length cs))
        else
          (inr tt,
           after w ([call; Open file_path; Write hdr]
                    ++ timeout_events self http_version
                    ++ map Write (firstn b cs)
                    ++ [PrintExn "Error serving file: " BrokenPipeError;
                        Close file_path])
                 tmo 0)
    end.
Proof.
  intros Hlook. unfold serve_file, open_rb, log. rewrite Hlook.
  rewrite serve_file_body_unfold.
  unfold bind, getsize. rewrite Hlook. unfold ret, out_write.
  cbn [events open_files sock_open sock_timeout budget connected_clients
       h_rest h_path].
  unfold timeout_after, timeout_events, when, settimeout, ret, print_exn, log, close.
  destruct (budget w) as [|b] eqn:Hb;
    cbn [events open_files sock_open sock_timeout budget connected_clients
         h_rest h_path remove_first].
  - rewrite String.eqb_refl. unfold after. rewrite <- !app_assoc. reflexivity.
  - destruct (String.eqb http_version "HTTP/1.0");
      rewrite stream_chunks;
      cbn [events open_files sock_open sock_timeout budget connected_clients
           h_rest h_path];
      destruct (List.length (chunks content) <=? b);
      unfold after;
      cbn [events open_files sock_open sock_timeout budget connected_clients
           h_rest h_path remove_first];
      rewrite String.eqb_refl, <- ?app_assoc; cbn [app]; rewrite <- ?app_assoc;
      reflexivity.
Qed.

(** the data of the successful writes, in order *)
Definition written (tr : list Event) : list (list byte) :=
  flat_map (fun e => match e with Write d => [d] | _ => [] end) tr.

(** the events [serve_file] can add after the record of its call *)
Definition serve_event (http_version : string) (e : Event) : Prop :=
  match e with
  | Open _ | Close _ | Write _ => True
  | PrintExn prefix _ => prefix = "Error serving file: "
  | SetTimeout _ => http_version = "HTTP/1.0"
  | _ => False
  end.

Lemma Forall_serve_event_writes (v : string) (cs : list (list byte)) :
  Forall (serve_event v) (map Write cs).
Proof. induction cs; constructor; cbn; auto. Qed.

Lemma Forall_serve_event_timeout (self : HttpServer.t) (v : string) :
  Forall (serve_event v) (timeout_events self v).
Proof.
  unfold timeout_events. destruct (String.eqb_spec v "HTTP/1.0"); repeat constructor.
  assumption.
Qed.

Lemma written_app (l1 l2 : list Event) : written (l1 ++ l2) = (written l1 ++ written l2)%list.
Proof. apply flat_map_app. Qed.

Lemma written_timeout_events (self : HttpServer.t) (v : string) :
  written (timeout_events self v) = [].
Proof. unfold timeout_events. destruct (String.eqb v "HTTP/1.0"); reflexivity. Qed.

(** Whatever happens in [serve_file]: it records its call, then only
    opens, writes, sets the timeout (for HTTP/1.0), logs its own error and
    closes; the first thing written, if anything, is the header block; it
    leaves the set of open files, the socket and the registry as they
    were; it returns, or raises the unbound-local error of its [finally]
    clause. *)
Lemma serve_file_frame (self : HttpServer.t) (env : Env)
      (file_path responsecode http_version : string) (w : World) :
  exists (evs : list Event) (tmo : option nat) (b : nat),
    snd (serve_file self env file_path responsecode http_version w)
    = after w (Call_serve_file file_path responsecode http_version :: evs) tmo b
    /\ Forall (serve_event http_version) evs
    /\ (fst (serve_file self env file_path responsecode http_version w) = inr tt
        \/ fst (serve_file self env file_path responsecode http_version w)
           = inl (UnboundLocalError "error_file"))
    /\ match written evs with
       | [] => True
       | d :: _ => exists size,
           d = header_block env file_path responsecode http_version size
       end.
Proof.
  destruct (open_error (fs env) file_path) as [e|] eqn:Hopen.
  - rewrite (@serve_file_open_fails self env file_path responsecode http_version e w Hopen).
    eexists _, _, _. cbn [fst snd]. split; [reflexivity|].
    split; [repeat constructor|]. split; [now right | exact I].
  - assert (Hlook : exists content,
               FS.lookup (fs env) file_path = Some (FS.File true content)).
    { unfold open_error in Hopen.
      destruct (FS.lookup (fs env) file_path) as [[[|] c|? ?]|]; try discriminate.
      now exists c. }
    destruct Hlook as [content Hlook].
    rewrite (@serve_file_open_ok self env file_path responsecode http_version content w Hlook).
    cbv zeta. destruct (budget w) as [|b].
    + eexists _, _, _. cbn [fst snd]. split; [reflexivity|].
      split; [repeat constructor|]. split; [now left | exact I].
    + destruct (List.length (chunks content) <=? b);
        eexists _, _, _; cbn [fst snd app]; (split; [reflexivity|]).
      * split; [|split; [now left | cbn; eauto]].
        repeat constructor.
        apply Forall_app; split; [apply Forall_serve_event_timeout|].
        apply Forall_app; split; [apply Forall_serve_event_writes|].
        repeat constructor.
      * split; [|split; [now left | cbn; eauto]].
        repeat constructor.
        apply Forall_app; split; [apply Forall_serve_event_timeout|].
        apply Forall_app; split; [apply Forall_serve_event_writes|].
        repeat constructor.
Qed.

(** ** What [run] does around the request *)

(** the end of [run]: the [with] block closes the socket, the handler of
    [run] logs what escaped, and [close_connection] finds the socket
    closed *)
Definition finish (rw : (Exn + unit) * World) : (Exn + unit) * World :=
  let '(r, w) := rw in
  let w := snd (sock_close w) in
  let w := match r with
           | inl e => snd (print_exn "Server error: " e w)
           | inr _ => w
           end in
  (inr tt, w).

Lemma run_finish (self : HttpServer.t) (env : Env) (visited_url : string) (w : World) :
  run self env visited_url w = finish (run_body self env visited_url w).
Proof.
  unfold run, try_finally, try_except, finish.
  destruct (run_body self env visited_url w) as [r w1].
  assert (Hcc : forall w', sock_open w' = false -> close_connection env w' = (inr tt, w')).
  { intros w' Hc. unfold close_connection, try_except, bind, getpeername.
    rewrite Hc. reflexivity. }
  unfold sock_close, print_exn, log.
  destruct r as [e|[]]; destruct (sock_open w1) eqn:E; cbn [snd];
    rewrite Hcc; cbn [sock_open]; auto.
Qed.

(** [run] never lets an exception out and always leaves the socket closed. *)
Lemma run_returns_closed (self : HttpServer.t) (env : Env) (visited_url : string)
      (w : World) :
  fst (run self env visited_url w) = inr tt
  /\ sock_open (snd (run self env visited_url w)) = false.
Proof.
  rewrite run_finish. unfold finish.
  destruct (run_body self env visited_url w) as [r w1]. cbn [fst snd].
  split; [reflexivity|].
  unfold sock_close, print_exn, log.
  destruct r; cbn [snd sock_open]; destruct (sock_open w1) eqn:E; auto.
Qed.

(** ** Outcomes *)

(** The outcomes of the specification, each with its status line and, for
    the errors, the asset its method hands to [serve_file]. *)
Inductive StatusOutcome : Type :=
| OK | BadRequest | Forbidden | NotFound | MethodNotSupported.

Definition status_line (o : StatusOutcome) : string :=
  match o with
  | OK => "200 OK"
  | BadRequest => "400 BadRequest"
  | Forbidden => "403 Forbidden"
  | NotFound => "404 FileNotFound"
  | MethodNotSupported => "501 NotImplemented"
  end.

Definition asset (o : StatusOutcome) : option string :=
  match o with
  | OK => None
  | BadRequest => Some BAD_REQUEST
  | Forbidden => Some FORBIDDEN
  | NotFound => Some FILE_NOT_FOUND
  | MethodNotSupported => Some METHOD_NOT_SUPPORTED
  end.

Definition outcome_of_status (responsecode : string) : option StatusOutcome :=
  if String.eqb responsecode "200 OK" then Some OK
  else if String.eqb responsecode "400 BadRequest" then Some BadRequest
  else if String.eqb responsecode "403 Forbidden" then Some Forbidden
  else if String.eqb responsecode "404 FileNotFound" then Some NotFound
  else if String.eqb responsecode "501 NotImplemented" then Some MethodNotSupported
  else None.

(** the outcomes a trace shows: one for each call of [serve_file] *)
Definition outcomes (tr : list Event) : list StatusOutcome :=
  flat_map (fun e => match e with
                     | Call_serve_file _ responsecode _ =>
                         match outcome_of_status responsecode with
                         | Some o => [o]
                         | None => []
                         end
                     | _ => []
                     end) tr.

(** what a handler does on a freshly accepted connection from which
    [readline] returned [visited_url] *)
Definition trace (self : HttpServer.t) (env : Env) (visited_url : string)
           (budget : nat) (clients : list string) : list Event :=
  events (snd (run self env visited_url (accepted budget clients))).

(** the method and the decoded target [run] takes from the request line *)
Definition parsed_method (visited_url : string) : string :=
  nth 0 (PyStr.split " " visited_url) "".

Definition parsed_target (visited_url : string) : string :=
  PyStr.unquote (nth 1 (PyStr.split " " visited_url) "").

(** What [run] settles before it calls [serve_file]: the events up to the
    call, the outcome, the file and the protocol version handed over. *)
Record Plan : Type := mkPlan {
  pre : list Event;
  outcome : StatusOutcome;
  file : string;
  version : string
}.

Definition debug_events (self : HttpServer.t) (line : string) : list Event :=
  if debug self then [Print line] else [].

Definition plan_dispatch (self : HttpServer.t) (env : Env)
           (http_method file_name : string) : Plan :=
  let dbg := debug_events self ("file_name " ++ file_name) in
  if negb (String.eqb (PyStr.upper http_method) "GET")
     || negb (is_file_supported file_name)
  then mkPlan (dbg ++ [Print ("HTTP 400 Error: " ++ http_method ++ " Bad Request!")])
              BadRequest BAD_REQUEST "HTTP/1.1"
  else
    match get_file_path (fs env) self file_name with
    | None =>
        mkPlan (dbg ++ [Call_get_file_path file_name;
                        Print ("HTTP 404 Error: " ++ file_name ++ " cannot be found!")])
               NotFound FILE_NOT_FOUND "HTTP/1.1"
    | Some file_path =>
        if negb (FS.access_R_OK (fs env) file_path)
        then mkPlan (dbg ++ [Call_get_file_path file_name;
                             Print ("HTTP 403 Error: " ++ file_name
                                    ++ " Forbidden (No permission)")])
                    Forbidden FORBIDDEN "HTTP/1.1"
        else mkPlan (dbg ++ Call_get_file_path file_name
                         :: debug_events self
                              ("Current thread name is " ++ thread_name env
                               ++ " and file opened " ++ file_path))
                    OK file_path ("HTTP/" ++ protocol self)
    end.

Definition plan (self : HttpServer.t) (env : Env) (visited_url : string) : Plan :=
  if List.length (PyStr.split " " visited_url) <? 2
  then mkPlan [Print "Invalid request";
               Print ("HTTP 400 Error: " ++ visited_url ++ " Bad Request!")]
              BadRequest BAD_REQUEST "HTTP/1.1"
  else plan_dispatch self env (parsed_method visited_url) (parsed_target visited_url).

(** the events that can follow the return of [serve_file] *)
Definition post_event (o : StatusOutcome) (http_version : string) (e : Event) : Prop :=
  match e with
  | SockClose => True
  | PrintExn prefix _ => prefix = "Server error: "
  | Sleep n => o = OK /\ http_version = "HTTP/1.0" /\ n = 2
  | Print line => o = OK /\ http_version = "HTTP/1.0"
  | _ => False
  end.

Lemma log_after (e : Event) (w : World) :
  log e w = (inr tt, after w [e] (sock_timeout w) (budget w)).
Proof. reflexivity. Qed.

Lemma when_debug_after (self : HttpServer.t) (line : string) (w : World) :
  when (debug self) (print line) w
  = (inr tt, after w (debug_events self line) (sock_timeout w) (budget w)).
Proof.
  unfold when, debug_events, print. destruct (debug self).
  - apply log_after.
  - unfold ret. now rewrite world_eta.
Qed.

(** [run_body] is its plan followed by [serve_file] and, on the OK path
    of HTTP/1.0, the drain delay. *)
Lemma run_body_plan (self : HttpServer.t) (env : Env) (visited_url : string)
      (w : World) :
  let pl := plan self env visited_url in
  let w0 := after w (pre pl) (sock_timeout w) (budget w) in
  run_body self env visited_url w
  = match serve_file self env (file pl) (status_line (outcome pl)) (version pl) w0 with
    | (inl e, w1) => (inl e, w1)
    | (inr _, w1) =>
        match outcome pl with
        | OK => when (String.eqb (version pl) "HTTP/1.0")
                     (sleep 2 ;; print "Connection closed for HTTP/1.0")%py w1
        | _ => (inr tt, w1)
        end
    end.
Proof.
  cbv zeta. unfold run_body, plan.
  destruct (List.length (PyStr.split " " visited_url) <? 2).
  - unfold bind, print, bad_request. rewrite log_after. unfold bind, print.
    rewrite log_after, after_after. cbn [pre file outcome version status_line app].
    cbn [sock_timeout budget after].
    destruct (serve_file _ _ _ _ _ _) as [[e|[]] w1]; reflexivity.
  - fold (parsed_method visited_url). fold (parsed_target visited_url).
    generalize (parsed_method visited_url) as m.
    generalize (parsed_target visited_url) as t. intros t m.
    unfold dispatch, plan_dispatch, bind. rewrite when_debug_after.
    destruct (negb (String.eqb (PyStr.upper m) "GET") || negb (is_file_supported t)).
    + unfold bad_request, bind, print. rewrite log_after, after_after.
      cbn [pre file outcome version status_line sock_timeout budget after].
      destruct (serve_file _ _ _ _ _ _) as [[e|[]] w1]; reflexivity.
    + rewrite log_after, after_after.
      destruct (get_file_path (fs env) self t) as [file_path|].
      * destruct (negb (FS.access_R_OK (fs env) file_path)).
        -- unfold file_forbidden, bind, print. rewrite log_after, after_after.
           cbn [pre file outcome version status_line sock_timeout budget after].
           rewrite <- app_assoc. cbn [app].
           destruct (serve_file _ _ _ _ _ _) as [[e|[]] w1]; reflexivity.
        -- rewrite when_debug_after, after_after.
           cbn [pre file outcome version status_line sock_timeout budget after].
           rewrite <- app_assoc. cbn [app].
           destruct (serve_file _ _ _ _ _ _) as [[e|[]] w1]; reflexivity.
      * unfold file_not_found, bind, print. rewrite log_after, after_after.
        cbn [pre file outcome version status_line sock_timeout budget after].
        rewrite <- app_assoc. cbn [app].
        destruct (serve_file _ _ _ _ _ _) as [[e|[]] w1]; reflexivity.
Qed.

(** The shape of every trace: the events of the plan, the call of
    [serve_file], what [serve_file] does, and the end of [run]. *)
Lemma run_trace (self : HttpServer.t) (env : Env) (visited_url : string)
      (budget : nat) (clients : list string) :
  let pl := plan self env visited_url in
  exists evs post,
    trace self env visited_url budget clients
    = (pre pl
       ++ Call_serve_file (file pl) (status_line (outcome pl)) (version pl)
       :: evs ++ post)%list
    /\ Forall (serve_event (version pl)) evs
    /\ match written evs with
       | [] => True
       | d :: _ => exists size,
           d = header_block env (file pl) (status_line (outcome pl)) (version pl) size
       end
    /\ Forall (post_event (outcome pl) (version pl)) post.
Proof.
  cbv zeta. unfold trace. rewrite run_finish, run_body_plan. cbv zeta.
  set (pl := plan self env visited_url).
  destruct (serve_file_frame self env (file pl) (status_line (outcome pl)) (version pl)
              (after (accepted budget clients) (pre pl)
                     (sock_timeout (accepted budget clients))
                     (Py.budget (accepted budget clients))))
    as (evs & tmo & b & Hsnd & Hall & _ & Hhdr).
  destruct (serve_file _ _ _ _ _ _) as [r w1]. cbn [snd] in Hsnd. subst w1.
  exists evs.
  destruct r as [e|[]].
  - exists [SockClose; PrintExn "Server error: " e].
    split; [|split; [exact Hall | split; [exact Hhdr | repeat constructor]]].
    cbn. rewrite <- !app_assoc. reflexivity.
  - destruct (outcome pl) eqn:Ho.
    1: destruct (String.eqb_spec (version pl) "HTTP/1.0") as [Hv|Hv].
    1: exists [Sleep 2; Print "Connection closed for HTTP/1.0"; SockClose].
    2-6: exists [SockClose].
    all: (split; [|split; [exact Hall | split; [exact Hhdr | repeat constructor; auto]]]).
    all: cbn; rewrite <- ?app_assoc; cbn; rewrite <- ?app_assoc; reflexivity.
Qed.

Lemma outcomes_app (l1 l2 : list Event) :
  outcomes (l1 ++ l2) = (outcomes l1 ++ outcomes l2)%list.
Proof. apply flat_map_app. Qed.

Lemma outcomes_serve_events (v : string) (evs : list Event) :
  Forall (serve_event v) evs -> outcomes evs = [].
Proof.
  induction 1 as [|e evs He _ IH]; [reflexivity|].
  destruct e; cbn in He; try contradiction; exact IH.
Qed.

Lemma outcomes_post_events (o : StatusOutcome) (v : string) (post : list Event) :
  Forall (post_event o v) post -> outcomes post = [].
Proof.
  induction 1 as [|e post He _ IH]; [reflexivity|].
  destruct e; cbn in He; try contradiction; exact IH.
Qed.

Lemma outcomes_debug_events (self : HttpServer.t) (line : string) :
  outcomes (debug_events self line) = [].
Proof. unfold debug_events. destruct (debug self); reflexivity. Qed.

Lemma outcomes_pre (self : HttpServer.t) (env : Env) (visited_url : string) :
  outcomes (pre (plan self env visited_url)) = [].
Proof.
  unfold plan, plan_dispatch.
  destruct (_ <? 2); [reflexivity|].
  destruct (negb _ || negb _).
  - cbn [pre]. rewrite outcomes_app, outcomes_debug_events. reflexivity.
  - destruct (get_file_path _ _ _); [destruct (negb _)|]; cbn [pre];
      rewrite outcomes_app, outcomes_debug_events; try reflexivity.
    cbn [app]. change (outcomes (?a :: ?l)) with (outcomes l).
    apply outcomes_debug_events.
Qed.

Lemma outcome_of_status_line (o : StatusOutcome) :
  outcome_of_status (status_line o) = Some o.
Proof. destruct o; reflexivity. Qed.

(** Every run calls [serve_file] once, with the outcome of its plan. *)
Lemma outcomes_trace (self : HttpServer.t) (env : Env) (visited_url : string)
      (budget : nat) (clients : list string) :
  outcomes (trace self env visited_url budget clients)
  = [outcome (plan self env visited_url)].
Proof.
  destruct (run_trace self env visited_url budget clients)
    as (evs & post & -> & Hevs & _ & Hpost).
  rewrite outcomes_app, outcomes_pre. cbn [app outcomes flat_map].
  rewrite outcome_of_status_line.
  fold (outcomes (evs ++ post)).
  rewrite outcomes_app, (outcomes_serve_events Hevs), (outcomes_post_events Hpost).
  reflexivity.
Qed.

(** ** Method and extension check *)

(** the supported extensions as the specification lists them *)
Definition spec_extensions : list string :=
  ["pdf"; "jpeg"; "jpg"; "png"; "txt"; "gif"; "html"; "mp4"; "json"; "js"; "css"].

(** the extension of the target is one of the list, whatever its case, or
    the target has no extension *)
Definition extension_supported (target : string) : Prop :=
  let ext := PyStr.lower (snd (PosixPath.splitext target)) in
  ext = "" \/ exists x, In x spec_extensions /\ ext = "." ++ x.

(** equality of two strings up to the case of their letters *)
Definition eq_ignore_case (a b : string) : bool :=
  String.eqb (PyStr.lower a) (PyStr.lower b).

Lemma is_file_supported_iff (target : string) :
  is_file_supported target = true <-> extension_supported target.
Proof.
  unfold is_file_supported, extension_supported.
  destruct (PosixPath.splitext target) as [root ext]. cbn [snd].
  generalize (PyStr.lower ext) as e. intros e. split.
  - intros H. apply existsb_exists in H. destruct H as (x & Hin & Hx).
    apply String.eqb_eq in Hx. subst x.
    cbn in Hin.
    repeat (destruct Hin as [<-|Hin];
            [first [now left
                   | right; eexists; split; [|reflexivity]; cbn; tauto]|]).
    contradiction.
  - intros [->|(x & Hin & ->)]; [reflexivity|].
    cbn in Hin.
    repeat (destruct Hin as [<-|Hin]; [reflexivity|]). contradiction.
Qed.

Lemma upper_GET_iff (m : string) :
  PyStr.upper m = "GET" <-> eq_ignore_case m "GET" = true.
Proof.
  unfold eq_ignore_case. rewrite String.eqb_eq.
  destruct m as [|c1 [|c2 [|c3 [|c4 m]]]]; cbn; try (split; discriminate).
  assert (HG : forall c, PyStr.upper_char c = "G"%char <-> PyStr.lower_char c = "g"%char)
    by (intros [[] [] [] [] [] [] [] []]; vm_compute; split; congruence).
  assert (HE : forall c, PyStr.upper_char c = "E"%char <-> PyStr.lower_char c = "e"%char)
    by (intros [[] [] [] [] [] [] [] []]; vm_compute; split; congruence).
  assert (HT : forall c, PyStr.upper_char c = "T"%char <-> PyStr.lower_char c = "t"%char)
    by (intros [[] [] [] [] [] [] [] []]; vm_compute; split; congruence).
  split; intros [= H1 H2 H3]; f_equal; [| f_equal; [| f_equal] | | f_equal; [| f_equal]];
    first [now apply HG | now apply HE | now apply HT].
Qed.

(** C2: for a request line with a method and a target, the OK path is
    taken only when the method is GET up to case and the extension of the
    target, lowered, is in the supported set (or there is none); any other
    method or extension gives BadRequest, whatever the target resolves
    to; and no request line at all reaches MethodNotSupported. *)
Theorem only_supported_GET_is_served (self : HttpServer.t) (env : Env)
        (visited_url : string) (budget : nat) (clients : list string) :
  let http_method := parsed_method visited_url in
  let file_name := parsed_target visited_url in
  let os := outcomes (trace self env visited_url budget clients) in
  (2 <= List.length (PyStr.split " " visited_url) ->
   (In OK os ->
    eq_ignore_case http_method "GET" = true /\ extension_supported file_name)
   /\ (eq_ignore_case http_method "GET" = false \/ ~ extension_supported file_name ->
       os = [BadRequest]))
  /\ ~ In MethodNotSupported os.
Proof.
  cbv zeta. rewrite outcomes_trace. unfold plan.
  destruct (Nat.ltb_spec (List.length (PyStr.split " " visited_url)) 2) as [Hlt|Hge].
  - split; [lia|]. cbn. intros [H|[]]; discriminate.
  - unfold plan_dispatch.
    destruct (String.eqb_spec (PyStr.upper (parsed_method visited_url)) "GET")
      as [HG|HG]; cbn [negb orb].
    + destruct (is_file_supported (parsed_target visited_url)) eqn:Hsup; cbn [negb].
      * assert (Hm : eq_ignore_case (parsed_method visited_url) "GET" = true)
          by now apply upper_GET_iff.
        assert (Hx : extension_supported (parsed_target visited_url))
          by now apply is_file_supported_iff.
        split.
        -- intros _. split; [auto|]. intros [Hc|Hc]; [congruence | contradiction].
        -- destruct (get_file_path _ _ _); [destruct (negb _)|]; cbn;
             intros [H|[]]; discriminate.
      * split; [|cbn; intros [H|[]]; discriminate].
        intros _. split; [cbn; intros [H|[]]; discriminate | reflexivity].
    + split; [|cbn; intros [H|[]]; discriminate].
      intros _. split; [cbn; intros [H|[]]; discriminate | reflexivity].
Qed.

Lemma only_supported_GET_is_served_witness :
  2 <= List.length (PyStr.split " " ("POST /a.txt HTTP/1.1" ++ LF))
  /\ outcomes (trace demo_11 demo_env ("POST /a.txt HTTP/1.1" ++ LF) 8 []) = [BadRequest].
Proof.
  assert (H2 : 2 <= List.length (PyStr.split " " ("POST /a.txt HTTP/1.1" ++ LF)))
    by (vm_compute; lia).
  split; [exact H2|].
  destruct (only_supported_GET_is_served demo_11 demo_env
              ("POST /a.txt HTTP/1.1" ++ LF) 8 []) as [H _].
  apply (H H2). left. vm_compute. reflexivity.
Defined.

(** ** The error paths *)

(** the events of a plan: prints and the record of the path resolution *)
Definition pre_event (e : Event) : Prop :=
  match e with
  | Print _ | Call_get_file_path _ => True
  | _ => False
  end.

Lemma Forall_pre_debug (self : HttpServer.t) (line : string) :
  Forall pre_event (debug_events self line).
Proof. unfold debug_events. destruct (debug self); repeat constructor. Qed.

Lemma Forall_pre_plan (self : HttpServer.t) (env : Env) (visited_url : string) :
  Forall pre_event (pre (plan self env visited_url)).
Proof.
  unfold plan, plan_dispatch.
  destruct (_ <? 2); [repeat constructor|].
  destruct (negb _ || negb _);
    [|destruct (get_file_path _ _ _); [destruct (negb _)|]];
    cbn [pre]; apply Forall_app; split;
    try apply Forall_pre_debug; repeat constructor.
  apply Forall_pre_debug.
Qed.

(** An error outcome comes with its asset and the literal HTTP/1.1. *)
Lemma plan_error (self : HttpServer.t) (env : Env) (visited_url : string) :
  let pl := plan self env visited_url in
  outcome pl <> OK ->
  version pl = "HTTP/1.1" /\ asset (outcome pl) = Some (file pl).
Proof.
  cbv zeta. unfold plan, plan_dispatch.
  destruct (_ <? 2); [cbn; auto|].
  destruct (negb _ || negb _); [cbn; auto|].
  destruct (get_file_path _ _ _); [destruct (negb _)|]; cbn; auto.
  intros H; now elim H.
Qed.

(** On the OK path the file is the resolved path and the version is the
    configured one. *)
Lemma plan_OK (self : HttpServer.t) (env : Env) (visited_url : string) :
  let pl := plan self env visited_url in
  outcome pl = OK ->
  version pl = "HTTP/" ++ protocol self
  /\ get_file_path (fs env) self (parsed_target visited_url) = Some (file pl).
Proof.
  cbv zeta. unfold plan, plan_dispatch.
  destruct (_ <? 2); [discriminate|].
  destruct (negb _ || negb _); [discriminate|].
  destruct (get_file_path _ _ _); [destruct (negb _)|]; cbn; try discriminate; auto.
Qed.

(** [SetTimeout] and [Sleep]: the idle timeout and the drain delay *)
Definition is_timing (e : Event) : bool :=
  match e with
  | SetTimeout _ | Sleep _ => true
  | _ => false
  end.

Lemma append_assoc (a b c : string) : (a ++ b) ++ c = a ++ b ++ c.
Proof. induction a as [|x a IH]; cbn; [reflexivity | now rewrite IH]. Qed.

(** the text of the header block, line by line *)
Lemma header_block_text (env : Env) (file_path responsecode http_version : string)
      (size : nat) :
  header_block env file_path responsecode http_version size
  = list_byte_of_string
      (http_version ++ " " ++ responsecode ++ CRLF
       ++ "Server: Python HTTP Server" ++ CRLF
       ++ "Date: " ++ get_current_date env ++ CRLF
       ++ "Content-type: " ++ format_optional (guess_type env file_path) ++ CRLF
       ++ "Content-length: " ++ PyStr.str_of_nat size ++ CRLF
       ++ CRLF).
Proof.
  unfold header_block, headers. f_equal. cbn [PyStr.join].
  rewrite !append_assoc. cbn [append]. reflexivity.
Qed.

Lemma written_serve_pre (l : list Event) : Forall pre_event l -> written l = [].
Proof.
  induction 1 as [|e l He _ IH]; [reflexivity|].
  destruct e; cbn in He; try contradiction; exact IH.
Qed.

Lemma written_post (o : StatusOutcome) (v : string) (l : list Event) :
  Forall (post_event o v) l -> written l = [].
Proof.
  induction 1 as [|e l He _ IH]; [reflexivity|].
  destruct e; cbn in He; try contradiction; exact IH.
Qed.

(** C10: on an error outcome (BadRequest, NotFound or Forbidden; the
    plan has no other) [serve_file] is called with the literal HTTP/1.1
    whatever the configured protocol, the status line written is
    [HTTP/1.1 <status>], and neither the idle timeout is set nor the drain
    delay slept; a run that sets the timeout or sleeps is on the OK path
    of a server configured for HTTP/1.0. *)
Theorem error_paths_are_HTTP_1_1_without_delay (self : HttpServer.t) (env : Env)
        (visited_url : string) (budget : nat) (clients : list string)
        (o : StatusOutcome) :
  let tr := trace self env visited_url budget clients in
  (In o (outcomes tr) -> o <> OK ->
   In o [BadRequest; NotFound; Forbidden]
   /\ (forall p code v, In (Call_serve_file p code v) tr ->
                        v = "HTTP/1.1" /\ code = status_line o)
   /\ (forall d rest, written tr = d :: rest ->
         exists text,
           d = list_byte_of_string ("HTTP/1.1 " ++ status_line o ++ CRLF ++ text))
   /\ (forall e, In e tr -> is_timing e = false))
  /\ (forall e, In e tr -> is_timing e = true ->
        outcomes tr = [OK] /\ protocol self = "1.0").
Proof.
  cbv zeta.
  pose proof (outcomes_trace self env visited_url budget clients) as Hos.
  destruct (run_trace self env visited_url budget clients)
    as (evs & post & Htr & Hevs & Hhdr & Hpost).
  pose proof (Forall_pre_plan self env visited_url) as Hpre.
  cbv zeta in *. set (pl := plan self env visited_url) in *.
  rewrite Htr, <- Htr, Hos.
  assert (Hcases : forall e, In e (trace self env visited_url budget clients) ->
            pre_event e
            \/ e = Call_serve_file (file pl) (status_line (outcome pl)) (version pl)
            \/ serve_event (version pl) e
            \/ post_event (outcome pl) (version pl) e).
  { intros e He. rewrite Htr in He.
    rewrite Forall_forall in Hpre, Hevs, Hpost.
    apply in_app_or in He. destruct He as [He|[He|He]]; auto.
    apply in_app_or in He. destruct He; auto. }
  split.
  - intros [<-|[]] Hne.
    destruct (plan_error self env visited_url Hne) as [Hv Ha]. fold pl in Hv, Ha.
    split; [|split; [|split]].
    + destruct (outcome pl) eqn:Ho; cbn; auto; try (now elim Hne).
      exfalso. clear - Ho. unfold pl, plan, plan_dispatch in Ho.
      destruct (_ <? 2); [discriminate|].
      destruct (negb _ || negb _); [discriminate|].
      destruct (get_file_path _ _ _); [destruct (negb _)|]; discriminate.
    + intros p code v Hin.
      destruct (Hcases _ Hin) as [H|[H|[H|H]]]; cbn in H; try contradiction.
      injection H as -> -> ->. auto.
    + intros d rest Hw. rewrite Htr in Hw.
      rewrite written_app, (written_serve_pre Hpre) in Hw.
      cbn [app written flat_map] in Hw. fold (written (evs ++ post)) in Hw.
      rewrite written_app, (written_post Hpost), app_nil_r in Hw.
      rewrite Hw in Hhdr. destruct Hhdr as [size ->].
      rewrite header_block_text, Hv. eexists. reflexivity.
    + intros e Hin.
      destruct (Hcases _ Hin) as [H|[H|[H|H]]]; destruct e; cbn in *;
        try contradiction; try discriminate; try reflexivity.
      * rewrite Hv in H. discriminate.
      * destruct H as [H _]. contradiction.
  - intros e Hin Ht.
    destruct (Hcases _ Hin) as [H|[H|[H|H]]]; destruct e; cbn in *;
      try contradiction; try discriminate.
    + (* the idle timeout *)
      destruct (outcome pl) eqn:Ho.
      2-5: (assert (Hne : outcome pl <> OK) by (rewrite Ho; discriminate);
            destruct (plan_error self env visited_url Hne) as [Hv _];
            fold pl in Hv; rewrite Hv in H; discriminate).
      destruct (plan_OK self env visited_url Ho) as [Hv _]. fold pl in Hv.
      rewrite Hv in H. injection H as H. auto.
    + (* the drain delay *)
      destruct H as (Ho & Hv0 & _).
      destruct (plan_OK self env visited_url Ho) as [Hv _]. fold pl in Hv.
      rewrite Hv in Hv0. injection Hv0 as Hp. rewrite Ho. auto.
Qed.

Lemma error_paths_are_HTTP_1_1_without_delay_witness :
  In NotFound (outcomes (trace demo_10 demo_env ("GET /missing.html HTTP/1.0" ++ LF) 8 []))
  /\ NotFound <> OK
  /\ written (trace demo_10 demo_env ("GET /missing.html HTTP/1.0" ++ LF) 8 [])
     = [ list_byte_of_string
           ("HTTP/1.1 404 FileNotFound" ++ CRLF
            ++ "Server: Python HTTP Server" ++ CRLF
            ++ "Date: Tue, 03 Nov 2026 09:05:07 GMT" ++ CRLF
            ++ "Content-type: text/html" ++ CRLF
            ++ "Content-length: 9" ++ CRLF ++ CRLF);
         list_byte_of_string "not found" ]
  /\ forall e, In e (trace demo_10 demo_env ("GET /missing.html HTTP/1.0" ++ LF) 8 []) ->
               is_timing e = false.
Proof.
  assert (Hin : In NotFound
                   (outcomes (trace demo_10 demo_env
                                    ("GET /missing.html HTTP/1.0" ++ LF) 8 [])))
    by (vm_compute; auto).
  assert (Hne : NotFound <> OK) by discriminate.
  destruct (error_paths_are_HTTP_1_1_without_delay demo_10 demo_env
              ("GET /missing.html HTTP/1.0" ++ LF) 8 [] NotFound) as [H _].
  destruct (H Hin Hne) as (_ & _ & _ & Ht).
  split; [exact Hin|]. split; [exact Hne|]. split; [vm_compute; reflexivity | exact Ht].
Defined.

(** ** The header block *)











(** the events a call adds to the world it starts from *)
Definition added (w w' : World) (evs : list Event) : Prop :=
  events w' = (events w ++ evs)%list.



(** ** The body *)

(** C5: when the file opens and the peer takes the header and every
    chunk, [serve_file] returns after writing the header block and then the
    file in chunks: their concatenation is the content of the file, byte
    for byte and so [N] bytes for a file of [N] bytes; no chunk is empty or
    longer than 4096 bytes, and every chunk but the last has 4096. *)
Theorem serve_file_streams_the_file (self : HttpServer.t) (env : Env)
        (file_path responsecode http_version : string) (content : list byte)
        (w : World) :
  FS.lookup (fs env) file_path = Some (FS.File true content) ->
  List.length (chunks content) < budget w ->
  fst (serve_file self env file_path responsecode http_version w) = inr tt
  /\ exists evs hdr body,
       added w (snd (serve_file self env file_path responsecode http_version w)) evs
       /\ written evs = hdr :: body
       /\ concat body = content
       /\ List.length (concat body) = List.length content
       /\ Forall (fun c => c <> [] /\ List.length c <= 4096) body
       /\ Forall (fun c => List.length c = 4096) (removelast body).
Proof.
  intros Hlook Hb.
  rewrite (@serve_file_open_ok self env file_path responsecode http_version content w Hlook).
  cbv zeta. destruct (budget w) as [|b]; [lia|].
  destruct (Nat.leb_spec (List.length (chunks content)) b) as [_|Hlt]; [|lia].
  split; [reflexivity|].
  eexists _, _, (chunks content). split; [reflexivity|].
  split; [|split; [apply chunks_concat
                  | split; [now rewrite chunks_concat
                           | split; [apply chunks_bounded | apply chunks_full]]]].
  cbn [app written flat_map]. f_equal.
  fold (written (timeout_events self http_version
                 ++ map Write (chunks content) ++ [Close file_path])).
  rewrite !written_app, written_timeout_events. cbn [app written flat_map].
  rewrite app_nil_r. clear.
  induction (chunks content) as [|c cs IH]; [reflexivity|].
  cbn [map written flat_map app]. f_equal. exact IH.
Qed.

(** a file of two full chunks and eight bytes more *)
Definition demo_big : list byte := repeat x41 (4096 + 4096 + 8).

Definition demo_big_env : Env :=
  mkEnv (FS.mk "/" [("/srv/big.txt", FS.File true demo_big)])
        (Clock.mk 2026 11 3 9 5 7) demo_mime "192.0.2.7" "Thread-1".

Lemma serve_file_streams_the_file_witness :
  FS.lookup (fs demo_big_env) "/srv/big.txt" = Some (FS.File true demo_big)
  /\ List.length (chunks demo_big) < budget (accepted 8 [])
  /\ map (@List.length byte)
         (written (events (snd (serve_file demo_11 demo_big_env "/srv/big.txt"
                                           "200 OK" "HTTP/1.1" (accepted 8 [])))))
     = [132; 4096; 4096; 8]
  /\ exists evs hdr body,
       added (accepted 8 [])
             (snd (serve_file demo_11 demo_big_env "/srv/big.txt" "200 OK" "HTTP/1.1"
                              (accepted 8 []))) evs
       /\ written evs = hdr :: body
       /\ concat body = demo_big.
Proof.
  assert (Hlook : FS.lookup (fs demo_big_env) "/srv/big.txt"
                  = Some (FS.File true demo_big)) by (vm_compute; reflexivity).
  assert (Hb : List.length (chunks demo_big) < budget (accepted 8 []))
    by (vm_compute; lia).
  split; [exact Hlook|]. split; [exact Hb|]. split; [vm_compute; reflexivity|].
  destruct (@serve_file_streams_the_file demo_11 demo_big_env "/srv/big.txt" "200 OK"
              "HTTP/1.1" demo_big (accepted 8 []) Hlook Hb)
    as (_ & evs & hdr & body & Hadd & Hw & Hc & _).
  exists evs, hdr, body. auto.
Defined.

(** ** Release of the file, and the failure to open *)

(** [serve_file] leaves no file open, however it ends. *)
Lemma serve_file_releases_the_file (self : HttpServer.t) (env : Env)
      (file_path responsecode http_version : string) (w : World) :
  open_files (snd (serve_file self env file_path responsecode http_version w))
  = open_files w.
Proof.
  destruct (serve_file_frame self env file_path responsecode http_version w)
    as (evs & tmo & b & -> & _). reflexivity.
Qed.

(** C6, the code at the failing input: when [open] raises, [serve_file]
    logs the error, writes nothing and opens nothing, and then raises the
    unbound-local error of [error_file.close()] instead of returning. *)
Theorem serve_file_raises_when_open_fails (self : HttpServer.t) (env : Env)
        (file_path responsecode http_version : string) (e : Exn) (w : World) :
  open_error (fs env) file_path = Some e ->
  fst (serve_file self env file_path responsecode http_version w)
  = inl (UnboundLocalError "error_file")
  /\ added w (snd (serve_file self env file_path responsecode http_version w))
           [Call_serve_file file_path responsecode http_version;
            PrintExn "Error serving file: " e]
  /\ open_files (snd (serve_file self env file_path responsecode http_version w))
     = open_files w.
Proof.
  intros Hopen.
  rewrite (@serve_file_open_fails self env file_path responsecode http_version e w Hopen).
  repeat split.
Qed.

Lemma serve_file_raises_when_open_fails_witness :
  open_error (fs demo_env) "error/403.html" = Some (FileNotFoundError "error/403.html")
  /\ serve_file demo_11 demo_env "error/403.html" "403 Forbidden" "HTTP/1.1"
                (accepted 8 [])
     = (inl (UnboundLocalError "error_file"),
        mkWorld [Call_serve_file "error/403.html" "403 Forbidden" "HTTP/1.1";
                 PrintExn "Error serving file: " (FileNotFoundError "error/403.html")]
                [] true None 8 []).
Proof.
  assert (Hopen : open_error (fs demo_env) "error/403.html"
                  = Some (FileNotFoundError "error/403.html"))
    by (vm_compute; reflexivity).
  split; [exact Hopen|].
  pose proof (@serve_file_raises_when_open_fails demo_11 demo_env "error/403.html"
                "403 Forbidden" "HTTP/1.1" _ (accepted 8 []) Hopen) as [H _].
  destruct (serve_file demo_11 demo_env "error/403.html" "403 Forbidden" "HTTP/1.1"
                       (accepted 8 [])) as [r w'] eqn:E.
  cbn [fst] in H. subst r. f_equal.
  apply (f_equal snd) in E. cbn [snd] in E. rewrite <- E. vm_compute. reflexivity.
Defined.

(** ** The request line *)

(** [c not in s] *)
Fixpoint lacks (c : ascii) (s : string) : bool :=
  match s with
  | EmptyString => true
  | String a r => negb (Ascii.eqb a c) && lacks c r
  end.

Lemma split_nonempty (c : ascii) (s : string) : PyStr.split c s <> [].
Proof.
  destruct s as [|a r]; cbn; [discriminate|].
  destruct (Ascii.eqb a c); [discriminate|].
  destruct (PyStr.split c r); discriminate.
Qed.

Lemma split_lacks (c : ascii) (s : string) :
  lacks c s = true -> PyStr.split c s = [s].
Proof.
  induction s as [|a r IH]; cbn; [reflexivity|].
  destruct (Ascii.eqb a c); cbn; [discriminate|].
  intros H. now rewrite (IH H).
Qed.

Lemma split_app (c : ascii) (a b : string) :
  lacks c a = true ->
  PyStr.split c (a ++ String c b) = a :: PyStr.split c b.
Proof.
  induction a as [|x a IH]; cbn.
  - intros _. now rewrite Ascii.eqb_refl.
  - destruct (Ascii.eqb x c); cbn; [discriminate|].
    intros H. now rewrite (IH H).
Qed.

(** a line has fewer than two parts exactly when it holds no space *)
Lemma split_short_iff (c : ascii) (s : string) :
  List.length (PyStr.split c s) < 2 <-> lacks c s = true.
Proof.
  split.
  - induction s as [|a r IH]; cbn; [reflexivity|].
    destruct (Ascii.eqb a c); cbn.
    + pose proof (split_nonempty c r). destruct (PyStr.split c r); [contradiction|].
      cbn. lia.
    + destruct (PyStr.split c r) as [|h t] eqn:E; cbn in *; auto.
  - intros H. rewrite (split_lacks _ _ H). cbn. lia.
Qed.

(** [run] reads the request line through its first two parts only. *)
Lemma run_body_two_parts (self : HttpServer.t) (env : Env) (l1 l2 : string) :
  2 <= List.length (PyStr.split " " l1) ->
  firstn 2 (PyStr.split " " l1) = firstn 2 (PyStr.split " " l2) ->
  parsed_method l1 = parsed_method l2
  /\ parsed_target l1 = parsed_target l2
  /\ run_body self env l1 = run_body self env l2.
Proof.
  unfold run_body, parsed_method, parsed_target.
  destruct (PyStr.split " " l1) as [|a1 [|b1 r1]]; cbn [List.length]; try lia.
  intros _.
  destruct (PyStr.split " " l2) as [|a2 [|b2 r2]]; cbn [firstn]; try discriminate.
  intros [= -> ->]. cbn. auto.
Qed.

(** C7, as stated, fails: [readline] keeps the line end, so on the line
    without the version the target is [/a.txt] followed by the line feed,
    whose extension is not supported. *)
Lemma version_token_is_not_optional :
  parsed_target ("GET /a.txt HTTP/1.1" ++ LF) = "/a.txt"
  /\ parsed_target ("GET /a.txt" ++ LF) = "/a.txt" ++ LF
  /\ outcomes (trace demo_11 demo_env ("GET /a.txt HTTP/1.1" ++ LF) 8 []) = [OK]
  /\ outcomes (trace demo_11 demo_env ("GET /a.txt" ++ LF) 8 []) = [BadRequest]
  /\ ~ (forall self env m t v budget clients,
          lacks " " m = true -> lacks " " t = true -> lacks " " v = true ->
          parsed_method (m ++ " " ++ t ++ " " ++ v ++ LF)
          = parsed_method (m ++ " " ++ t ++ LF)
          /\ parsed_target (m ++ " " ++ t ++ " " ++ v ++ LF)
             = parsed_target (m ++ " " ++ t ++ LF)
          /\ outcomes (trace self env (m ++ " " ++ t ++ " " ++ v ++ LF) budget clients)
             = outcomes (trace self env (m ++ " " ++ t ++ LF) budget clients)).
Proof.
  split; [vm_compute; reflexivity|]. split; [vm_compute; reflexivity|].
  split; [vm_compute; reflexivity|]. split; [vm_compute; reflexivity|].
  intros H.
  destruct (H demo_11 demo_env "GET" "/a.txt" "HTTP/1.1" 8 []
              eq_refl eq_refl eq_refl) as (_ & Ht & _).
  vm_compute in Ht. discriminate.
Qed.

(** C7, amended: the request line is read through its first two parts,
    the parts being what single spaces separate: whatever follows the
    space after the target is ignored, so the line [METHOD TARGET] followed
    by a space and anything gives the method, the decoded target and the
    run of the bare [METHOD TARGET]. *)
Theorem parts_after_the_second_are_ignored (self : HttpServer.t) (env : Env)
        (m t rest : string) (w : World) :
  lacks " " m = true -> lacks " " t = true ->
  parsed_method (m ++ " " ++ t ++ " " ++ rest) = m
  /\ parsed_target (m ++ " " ++ t ++ " " ++ rest) = PyStr.unquote t
  /\ parsed_method (m ++ " " ++ t) = m
  /\ parsed_target (m ++ " " ++ t) = PyStr.unquote t
  /\ run self env (m ++ " " ++ t ++ " " ++ rest) w = run self env (m ++ " " ++ t) w
  /\ (forall budget clients,
        outcomes (trace self env (m ++ " " ++ t ++ " " ++ rest) budget clients)
        = outcomes (trace self env (m ++ " " ++ t) budget clients)).
Proof.
  intros Hm Ht.
  assert (H1 : PyStr.split " " (m ++ " " ++ t ++ " " ++ rest)
               = m :: t :: PyStr.split " " rest).
  { change (m ++ " " ++ t ++ " " ++ rest) with (m ++ String " " (t ++ String " " rest)).
    now rewrite !split_app. }
  assert (H2 : PyStr.split " " (m ++ " " ++ t) = [m; t]).
  { change (m ++ " " ++ t) with (m ++ String " " t).
    now rewrite split_app, split_lacks. }
  assert (Hbody : run_body self env (m ++ " " ++ t ++ " " ++ rest)
                  = run_body self env (m ++ " " ++ t)).
  { apply run_body_two_parts; rewrite H1; [cbn; lia | now rewrite H2]. }
  assert (Hrun : forall w', run self env (m ++ " " ++ t ++ " " ++ rest) w'
                            = run self env (m ++ " " ++ t) w').
  { intros w'. rewrite !run_finish. now rewrite Hbody. }
  unfold parsed_method, parsed_target. rewrite H1, H2. cbn [nth].
  repeat split; auto.
  intros budget clients. unfold trace. now rewrite Hrun.
Qed.

Lemma parts_after_the_second_are_ignored_witness :
  lacks " " "GET" = true /\ lacks " " "/a%2Etxt" = true
  /\ parsed_target ("GET" ++ " " ++ "/a%2Etxt" ++ " " ++ ("HTTP/1.1 x y " ++ LF)) = "/a.txt"
  /\ outcomes (trace demo_11 demo_env
                     ("GET" ++ " " ++ "/a%2Etxt" ++ " " ++ ("HTTP/1.1 x y " ++ LF)) 8 [])
     = [OK].
Proof.
  destruct (@parts_after_the_second_are_ignored demo_11 demo_env "GET" "/a%2Etxt"
              ("HTTP/1.1 x y " ++ LF) (accepted 8 []) eq_refl eq_refl)
    as (_ & Ht & _ & _ & _ & Ho).
  split; [vm_compute; reflexivity|]. split; [vm_compute; reflexivity|]. split.
  - rewrite Ht. vm_compute. reflexivity.
  - rewrite Ho. vm_compute. reflexivity.
Defined.

(** C8, as stated, fails: the line [GET ] and its line feed has one token
    between white space but two parts between single spaces; the handler
    resolves the target made of the line feed and takes the OK path. *)
Lemma whitespace_tokens_are_not_the_parts :
  List.length (PyStr.split_whitespace ("GET " ++ LF)) < 2
  /\ In (Call_get_file_path LF) (trace demo_11 demo_env ("GET " ++ LF) 8 [])
  /\ outcomes (trace demo_11 demo_env ("GET " ++ LF) 8 []) = [OK]
  /\ ~ (forall self env visited_url budget clients,
          List.length (PyStr.split_whitespace visited_url) < 2 ->
          outcomes (trace self env visited_url budget clients) = [BadRequest]
          /\ forall t, ~ In (Call_get_file_path t)
                            (trace self env visited_url budget clients)).
Proof.
  assert (H1 : List.length (PyStr.split_whitespace ("GET " ++ LF)) < 2)
    by (vm_compute; lia).
  assert (H2 : outcomes (trace demo_11 demo_env ("GET " ++ LF) 8 []) = [OK])
    by (vm_compute; reflexivity).
  split; [exact H1|]. split; [vm_compute; auto|]. split; [exact H2|].
  intros H. destruct (H demo_11 demo_env ("GET " ++ LF) 8 [] H1) as [Hbad _].
  rewrite H2 in Hbad. discriminate.
Qed.

(** C8, amended: for a request line with fewer than two parts between
    single spaces, that is a line without a space, the handler prints,
    calls [bad_request] with the raw line, closes the connection and
    returns: the trace starts with the two prints and the call of
    [serve_file] for the asset of BadRequest, the only outcome is
    BadRequest, and no path is resolved. *)
Theorem line_without_space_is_bad_request (self : HttpServer.t) (env : Env)
        (visited_url : string) (budget : nat) (clients : list string) :
  List.length (PyStr.split " " visited_url) < 2 ->
  let tr := trace self env visited_url budget clients in
  lacks " " visited_url = true
  /\ (exists rest,
        tr = Print "Invalid request"
             :: Print ("HTTP 400 Error: " ++ visited_url ++ " Bad Request!")
             :: Call_serve_file BAD_REQUEST "400 BadRequest" "HTTP/1.1"
             :: rest)
  /\ outcomes tr = [BadRequest]
  /\ (forall t, ~ In (Call_get_file_path t) tr)
  /\ fst (run self env visited_url (accepted budget clients)) = inr tt
  /\ sock_open (snd (run self env visited_url (accepted budget clients))) = false.
Proof.
  intros Hshort tr.
  assert (Hplan : plan self env visited_url
                  = mkPlan [Print "Invalid request";
                            Print ("HTTP 400 Error: " ++ visited_url ++ " Bad Request!")]
                           BadRequest BAD_REQUEST "HTTP/1.1").
  { unfold plan. destruct (Nat.ltb_spec (List.length (PyStr.split " " visited_url)) 2);
      [reflexivity | lia]. }
  destruct (run_trace self env visited_url budget clients)
    as (evs & post & Htr & Hevs & _ & Hpost).
  pose proof (outcomes_trace self env visited_url budget clients) as Hos.
  cbv zeta in *. rewrite Hplan in *. cbn [pre outcome file version status_line app] in *.
  fold tr in Htr, Hos.
  split; [now apply split_short_iff|].
  split; [eexists; exact Htr|]. split; [exact Hos|].
  split; [|apply run_returns_closed].
  intros t Hin. rewrite Htr in Hin.
  rewrite Forall_forall in Hevs, Hpost.
  destruct Hin as [Hin|[Hin|[Hin|Hin]]]; try discriminate.
  apply in_app_or in Hin. destruct Hin as [Hin|Hin].
  - apply Hevs in Hin. exact Hin.
  - apply Hpost in Hin. exact Hin.
Qed.

Lemma line_without_space_is_bad_request_witness :
  List.length (PyStr.split " " ("GET" ++ LF)) < 2
  /\ trace demo_11 demo_env ("GET" ++ LF) 8 []
     = [ Print "Invalid request";
         Print ("HTTP 400 Error: GET" ++ LF ++ " Bad Request!");
         Call_serve_file "error/400.html" "400 BadRequest" "HTTP/1.1";
         Open "error/400.html";
         Write (header_block demo_env "error/400.html" "400 BadRequest" "HTTP/1.1" 11);
         Write (list_byte_of_string "bad request");
         Close "error/400.html";
         SockClose ]
  /\ forall t, ~ In (Call_get_file_path t) (trace demo_11 demo_env ("GET" ++ LF) 8 []).
Proof.
  assert (H : List.length (PyStr.split " " ("GET" ++ LF)) < 2) by (vm_compute; lia).
  destruct (line_without_space_is_bad_request demo_11 demo_env ("GET" ++ LF) 8 [] H)
    as (_ & _ & _ & Hno & _).
  split; [exact H|]. split; [vm_compute; reflexivity | exact Hno].
Defined.

(** ** The error assets *)

(** the method of [HttpServer] that answers with an error outcome *)
Definition error_method (o : StatusOutcome)
  : option (HttpServer.t -> Env -> string -> M unit) :=
  match o with
  | OK => None
  | BadRequest => Some bad_request
  | Forbidden => Some file_forbidden
  | NotFound => Some file_not_found
  | MethodNotSupported => Some method_not_supported
  end.

(** C9, as stated, fails: the asset paths are relative and handed to
    [open] as they are, so they are taken from the working directory of
    the process, here [/home/app], and not from the document root
    [/srv]. *)
Lemma error_assets_are_not_under_the_document_root :
  asset BadRequest = Some "error/400.html"
  /\ FS.abspath demo_fs "error/400.html" = "/home/app/error/400.html"
  /\ under_root (document_root demo_11) (FS.abspath demo_fs "error/400.html") = false
  /\ In (Open "error/400.html")
        (trace demo_11 demo_env ("POST /a.txt HTTP/1.1" ++ LF) 8 [])
  /\ ~ (forall fs self o p,
          o <> OK -> asset o = Some p ->
          under_root (document_root self) (FS.abspath fs p) = true).
Proof.
  assert (Hu : under_root (document_root demo_11) (FS.abspath demo_fs "error/400.html")
               = false) by (vm_compute; reflexivity).
  split; [reflexivity|]. split; [vm_compute; reflexivity|]. split; [exact Hu|].
  split; [vm_compute; auto|].
  intros H.
  assert (Hne : BadRequest <> OK) by discriminate.
  rewrite (H demo_fs demo_11 BadRequest "error/400.html" Hne eq_refl) in Hu.
  discriminate.
Qed.

(** C9, amended: every outcome other than OK has exactly one asset, one
    of the four fixed relative paths [error/<code>.html], which its
    method hands to [serve_file] as it is, whatever the document root (so
    the file opened is the one under the working directory of the
    process); and when, on an error outcome, that asset cannot be opened,
    the run logs the failure, writes nothing, makes no second attempt,
    closes the socket and returns. *)
Theorem error_assets_are_fixed_and_their_failure_is_clean :
  (forall o, o <> OK ->
     exists p,
       asset o = Some p
       /\ (forall q, asset o = Some q -> q = p)
       /\ In p ["error/400.html"; "error/403.html"; "error/404.html"; "error/501.html"]
       /\ exists method,
            error_method o = Some method
            /\ forall self env arg w,
                 exists line,
                   method self env arg w
                   = serve_file self env p (status_line o) "HTTP/1.1"
                                (snd (print line w)))
  /\ (forall self env visited_url budget clients o p e,
        let tr := trace self env visited_url budget clients in
        In o (outcomes tr) -> o <> OK ->
        asset o = Some p -> open_error (fs env) p = Some e ->
        fst (run self env visited_url (accepted budget clients)) = inr tt
        /\ sock_open (snd (run self env visited_url (accepted budget clients))) = false
        /\ open_files (snd (run self env visited_url (accepted budget clients))) = []
        /\ written tr = []
        /\ outcomes tr = [o]
        /\ exists before,
             Forall pre_event before
             /\ tr = (before
                      ++ [Call_serve_file p (status_line o) "HTTP/1.1";
                          PrintExn "Error serving file: " e;
                          SockClose;
                          PrintExn "Server error: " (UnboundLocalError "error_file")])%list).
Proof.
  split.
  - intros o Hne. destruct o; [now elim Hne| | | |];
      (eexists; split; [reflexivity|];
       split; [now intros q [= <-]|];
       split; [cbn; tauto|];
       eexists; split; [reflexivity|];
       intros self env arg w; eexists; reflexivity).
  - intros self env visited_url budget clients o p e tr Hin Hne Ha Hopen.
    pose proof (outcomes_trace self env visited_url budget clients) as Hos.
    fold tr in Hos. rewrite Hos in Hin. destruct Hin as [<-|[]].
    destruct (plan_error self env visited_url Hne) as [Hv Hfile].
    rewrite Ha in Hfile. injection Hfile as Hfile.
    pose proof (Forall_pre_plan self env visited_url) as Hpre.
    destruct (run_returns_closed self env visited_url (accepted budget clients))
      as [Hret Hclosed].
    assert (Hrun : snd (run self env visited_url (accepted budget clients))
                   = mkWorld
                       (pre (plan self env visited_url)
                        ++ [Call_serve_file p
                              (status_line (outcome (plan self env visited_url)))
                              "HTTP/1.1";
                            PrintExn "Error serving file: " e;
                            SockClose;
                            PrintExn "Server error: " (UnboundLocalError "error_file")])
                       [] false None budget clients).
    { rewrite run_finish, run_body_plan. cbv zeta. rewrite <- Hfile, Hv.
      rewrite (@serve_file_open_fails self env p _ "HTTP/1.1" e _ Hopen).
      cbn. rewrite <- !app_assoc. reflexivity. }
    assert (Htr : tr = (pre (plan self env visited_url)
                        ++ [Call_serve_file p
                              (status_line (outcome (plan self env visited_url)))
                              "HTTP/1.1";
                            PrintExn "Error serving file: " e;
                            SockClose;
                            PrintExn "Server error: " (UnboundLocalError "error_file")])%list)
      by (unfold tr, trace; now rewrite Hrun).
    split; [exact Hret|]. split; [exact Hclosed|].
    split; [now rewrite Hrun|].
    split; [|split; [exact Hos | eexists; split; [exact Hpre | exact Htr]]].
    rewrite Htr, written_app, (written_serve_pre Hpre). reflexivity.
Qed.

Lemma error_assets_are_fixed_and_their_failure_is_clean_witness :
  In Forbidden (outcomes (trace demo_11 demo_env ("GET /secret.txt HTTP/1.1" ++ LF) 8 []))
  /\ Forbidden <> OK
  /\ asset Forbidden = Some "error/403.html"
  /\ open_error (fs demo_env) "error/403.html" = Some (FileNotFoundError "error/403.html")
  /\ fst (run demo_11 demo_env ("GET /secret.txt HTTP/1.1" ++ LF) (accepted 8 [])) = inr tt
  /\ written (trace demo_11 demo_env ("GET /secret.txt HTTP/1.1" ++ LF) 8 []) = [].
Proof.
  assert (Hin : In Forbidden
                   (outcomes (trace demo_11 demo_env
                                    ("GET /secret.txt HTTP/1.1" ++ LF) 8 [])))
    by (vm_compute; auto).
  assert (Hne : Forbidden <> OK) by discriminate.
  assert (Ha : asset Forbidden = Some "error/403.html") by reflexivity.
  assert (Hopen : open_error (fs demo_env) "error/403.html"
                  = Some (FileNotFoundError "error/403.html"))
    by (vm_compute; reflexivity).
  destruct error_assets_are_fixed_and_their_failure_is_clean as [_ H].
  destruct (H demo_11 demo_env ("GET /secret.txt HTTP/1.1" ++ LF) 8 [] Forbidden
              "error/403.html" _ Hin Hne Ha Hopen) as (Hret & _ & _ & Hw & _).
  exact (conj Hin (conj Hne (conj Ha (conj Hopen (conj Hret Hw))))).
Defined.

(* ===================================================================== *)
(** * Further properties of the handler                                   *)
(* ===================================================================== *)

(** ** Exception safety of [run] *)

(** From any world: [run] adds events, may set the timeout and use up
    write budget, closes the socket, and leaves the open files and the
    registry as they were. *)
Lemma run_frame (self : HttpServer.t) (env : Env) (visited_url : string) (w : World) :
  exists evs tmo b,
    snd (run self env visited_url w)
    = mkWorld (events w ++ evs) (open_files w) false tmo b (connected_clients w).
Proof.
  rewrite run_finish, run_body_plan. cbv zeta.
  set (pl := plan self env visited_url).
  destruct (serve_file_frame self env (file pl) (status_line (outcome pl)) (version pl)
              (after w (pre pl) (sock_timeout w) (budget w)))
    as (evs & tmo & b & Hsnd & _).
  destruct (serve_file _ _ _ _ _ _) as [r w1]. cbn [snd] in Hsnd. subst w1.
  assert (Hfin : forall r' evs' tmo' b',
             exists evs'' tmo'' b'',
               snd (finish (r', after w evs' tmo' b'))
               = mkWorld (events w ++ evs'') (open_files w) false tmo'' b''
                         (connected_clients w)).
  { intros r' evs' tmo' b'. unfold finish, sock_close, print_exn, log, after.
    cbn [snd events open_files sock_open sock_timeout budget connected_clients].
    destruct r' as [e|u]; destruct (sock_open w);
      cbn [snd events open_files sock_open sock_timeout budget connected_clients];
      rewrite <- ?app_assoc; eexists _, _, _; reflexivity. }
  rewrite after_after.
  destruct r as [e|[]]; [apply Hfin|].
  destruct (outcome pl); try apply Hfin.
  unfold when. destruct (String.eqb (version pl) "HTTP/1.0"); [|apply Hfin].
  unfold bind, sleep, print. rewrite !log_after, !after_after. apply Hfin.
Qed.

Lemma run_leaves_registry_frame (self : HttpServer.t) (env : Env)
      (visited_url : string) (w : World) :
  connected_clients (snd (run self env visited_url w)) = connected_clients w.
Proof.
  destruct (run_frame self env visited_url w) as (evs & tmo & b & Hw).
  rewrite Hw. reflexivity.
Qed.

(** X1: whatever the request line, the file system and the transport do,
    [run] returns without an exception, with the socket closed and with
    no file left open that was not open before. *)
Theorem run_is_exception_safe (self : HttpServer.t) (env : Env)
        (visited_url : string) (w : World) :
  fst (run self env visited_url w) = inr tt
  /\ sock_open (snd (run self env visited_url w)) = false
  /\ open_files (snd (run self env visited_url w)) = open_files w.
Proof.
  destruct (run_frame self env visited_url w) as (evs & tmo & b & Hw).
  rewrite Hw. cbn [sock_open open_files].
  split; [|split; reflexivity].
  rewrite run_finish. unfold finish.
  destruct (run_body self env visited_url w). reflexivity.
Qed.

(** ** The registry of connected clients *)

(** X2: [run] never takes the peer out of [connected_clients]: the
    [with] block has closed the socket when [close_connection] asks for
    the peer name, the call fails with errno 9 and the handler of
    [close_connection] drops that error. *)
Theorem run_leaves_the_registry (self : HttpServer.t) (env : Env)
        (visited_url : string) (w : World) :
  connected_clients (snd (run self env visited_url w)) = connected_clients w.
Proof.
  destruct (run_frame self env visited_url w) as (evs & tmo & b & Hw).
  rewrite Hw. reflexivity.
Qed.

Lemma remove_first_not_in (p : string) (l : list string) :
  ~ In p l -> remove_first p l = l.
Proof.
  induction l as [|q l IH]; [reflexivity|]. cbn. intros H.
  destruct (String.eqb_spec p q) as [->|Hne]; [exfalso; auto|].
  f_equal. apply IH. tauto.
Qed.



Lemma existsb_eqb_In (p : string) (l : list string) :
  existsb (String.eqb p) l = true <-> In p l.
Proof.
  rewrite existsb_exists. split.
  - intros (x & Hin & Hx). apply String.eqb_eq in Hx. now subst.
  - intros H. exists p. split; [assumption | apply String.eqb_refl].
Qed.



Lemma init_equation (env : Env) (v : World) :
  sock_open v = true ->
  init true env v
  = (inr tt,
     if existsb (String.eqb (peer_ip env)) (connected_clients v) then v
     else mkWorld (events v ++ [Print ("Connection opened: " ++ peer_ip env)])
                  (open_files v) (sock_open v) (sock_timeout v) (budget v)
                  (peer_ip env :: connected_clients v)).
Proof.
  destruct v as [ev ofs so st bu cl]. cbn [sock_open]. intros ->.
  unfold init, when, bind, getpeername, get_clients, set_clients, print, log, ret.
  cbn [events open_files sock_open sock_timeout budget connected_clients].
  destruct (existsb (String.eqb (peer_ip env)) cl); reflexivity.
Qed.

(** X4: on a connected socket [__init__] registers the peer: afterwards
    the peer is in the registry, nobody else has entered or left it, it
    still holds no address twice, and the opening is logged exactly when
    the peer was not registered before; doing it again changes nothing.
    The listening instance, built without a connection, touches
    nothing. *)
Theorem init_registers_the_peer_once (env : Env) (w : World) :
  sock_open w = true ->
  NoDup (connected_clients w) ->
  let w' := snd (init true env w) in
  fst (init true env w) = inr tt
  /\ In (peer_ip env) (connected_clients w')
  /\ NoDup (connected_clients w')
  /\ (forall ip, ip <> peer_ip env ->
                 (In ip (connected_clients w') <-> In ip (connected_clients w)))
  /\ events w'
     = (events w ++ if existsb (String.eqb (peer_ip env)) (connected_clients w)
                    then []
                    else [Print ("Connection opened: " ++ peer_ip env)])%list
  /\ init true env w' = (inr tt, w')
  /\ init false env w = (inr tt, w).
Proof.
  intros Hopen Hnd w'.
  pose proof (init_equation env) as Heq.
  unfold w'. rewrite (Heq w Hopen). cbn [fst snd].
  destruct (existsb (String.eqb (peer_ip env)) (connected_clients w)) eqn:Hex.
  - assert (Hin : In (peer_ip env) (connected_clients w)) by now apply existsb_eqb_In.
    split; [reflexivity|]. split; [assumption|]. split; [assumption|].
    split; [tauto|]. split; [now rewrite app_nil_r|].
    split; [|reflexivity]. rewrite (Heq w Hopen), Hex. reflexivity.
  - assert (Hnin : ~ In (peer_ip env) (connected_clients w)).
    { intros Hin. apply existsb_eqb_In in Hin. congruence. }
    cbn [events open_files sock_open sock_timeout budget connected_clients].
    split; [reflexivity|]. split; [now left|].
    split; [now constructor|].
    split; [|split; [reflexivity|split; [|reflexivity]]].
    + intros ip Hip. cbn [In]. split; [intros [H|H]; [congruence | assumption] | auto].
    + rewrite Heq by exact Hopen.
      cbn [events open_files sock_open sock_timeout budget connected_clients existsb].
      now rewrite String.eqb_refl.
Qed.

Lemma init_registers_the_peer_once_witness :
  sock_open (accepted 8 ["198.51.100.1"]) = true
  /\ NoDup (connected_clients (accepted 8 ["198.51.100.1"]))
  /\ snd (init true demo_env (accepted 8 ["198.51.100.1"]))
     = mkWorld [Print "Connection opened: 192.0.2.7"] [] true None 8
               ["192.0.2.7"; "198.51.100.1"]
  /\ In (peer_ip demo_env)
        (connected_clients (snd (init true demo_env (accepted 8 ["198.51.100.1"])))).
Proof.
  assert (Hopen : sock_open (accepted 8 ["198.51.100.1"]) = true) by reflexivity.
  assert (Hnd : NoDup (connected_clients (accepted 8 ["198.51.100.1"]))).
  { cbn. repeat constructor; cbn; intuition discriminate. }
  destruct (@init_registers_the_peer_once demo_env _ Hopen Hnd) as (_ & Hin & _).
  split; [exact Hopen|]. split; [exact Hnd|].
  split; [vm_compute; reflexivity | exact Hin].
Defined.

(** the process when the listener has accepted one more connection: a
    new socket, the same output and the same registry *)
Definition next_connection (budget : nat) (w : World) : World :=
  mkWorld (events w) (open_files w) true None budget (connected_clients w).

(** X5: since [run] never unregisters the peer, a second connection from
    the same address finds it registered: its [__init__] logs no opening
    and changes nothing, however the first connection ended. *)
Theorem opening_is_logged_once_per_address (self : HttpServer.t) (env : Env)
        (visited_url : string) (budget : nat) (w : World) :
  sock_open w = true ->
  NoDup (connected_clients w) ->
  let handled := snd (run self env visited_url (snd (init true env w))) in
  In (peer_ip env) (connected_clients handled)
  /\ init true env (next_connection budget handled)
     = (inr tt, next_connection budget handled).
Proof.
  intros Hopen Hnd handled.
  assert (Hin : In (peer_ip env) (connected_clients (snd (init true env w)))).
  { rewrite (init_equation env w Hopen). cbn [snd].
    destruct (existsb (String.eqb (peer_ip env)) (connected_clients w)) eqn:Hex.
    - now apply existsb_eqb_In.
    - now left. }
  assert (Hreg : connected_clients handled
                 = connected_clients (snd (init true env w)))
    by apply run_leaves_registry_frame.
  assert (Hin' : In (peer_ip env) (connected_clients handled)) by now rewrite Hreg.
  split; [exact Hin'|].
  unfold init, when, bind, getpeername, get_clients, next_connection.
  cbn [events open_files sock_open sock_timeout Py.budget connected_clients].
  apply existsb_eqb_In in Hin'. rewrite Hin'. reflexivity.
Qed.

Lemma opening_is_logged_once_per_address_witness :
  sock_open (accepted 8 []) = true
  /\ NoDup (connected_clients (accepted 8 []))
  /\ connected_clients
       (snd (run demo_11 demo_env ("GET /a.txt HTTP/1.1" ++ LF)
                 (snd (init true demo_env (accepted 8 [])))))
     = ["192.0.2.7"].
Proof.
  assert (Hopen : sock_open (accepted 8 []) = true) by reflexivity.
  assert (Hnd : NoDup (connected_clients (accepted 8 []))) by constructor.
  destruct (@opening_is_logged_once_per_address demo_11 demo_env
              ("GET /a.txt HTTP/1.1" ++ LF) 8 _ Hopen Hnd) as [Hin _].
  split; [exact Hopen|]. split; [exact Hnd|]. vm_compute. reflexivity.
Defined.

(** ** The effect of [serve_file], in closed form *)

(** What [serve_file] returns, the events it adds, and the timeout and
    the write budget it leaves, from the timeout and the budget it
    finds. *)
Definition serve_effect (self : HttpServer.t) (env : Env)
           (file_path responsecode http_version : string)
           (tmo : option nat) (b : nat)
  : (Exn + unit) * (list Event * option nat * nat) :=
  let call := Call_serve_file file_path responsecode http_version in
  let failed (e : Exn) : (Exn + unit) * (list Event * option nat * nat) :=
    (inl (UnboundLocalError "error_file"),
     ([call; PrintExn "Error serving file: " e], tmo, b)) in
  match FS.lookup (fs env) file_path with
  | None => failed (FileNotFoundError file_path)
  | Some (FS.Dir _ _) => failed (IsADirectoryError file_path)
  | Some (FS.File false _) => failed (PermissionError file_path)
  | Some (FS.File true content) =>
      let hdr := header_block env file_path responsecode http_version
                              (List.length content) in
      let cs := chunks content in
      match b with
      | O => (inr tt,
              ([call; Open file_path;
                PrintExn "Error serving file: " BrokenPipeError;
                Close file_path], tmo, 0))
      | S b' =>
          if List.length cs <=? b' then
            (inr tt,
             (([call; Open file_path; Write hdr]
               ++ timeout_events self http_version
               ++ map Write cs ++ [Close file_path])%list,
              timeout_after self http_version tmo, b' - List.length cs))
          else
            (inr tt,
             (([call; Open file_path; Write hdr]
               ++ timeout_events self http_version
               ++ map Write (firstn b' cs)
               ++ [PrintExn "Error serving file: " BrokenPipeError;
                   Close file_path])%list,
              timeout_after self http_version tmo, 0))
      end
  end.

Lemma serve_file_effect (self : HttpServer.t) (env : Env)
      (file_path responsecode http_version : string) (w : World) :
  serve_file self env file_path responsecode http_version w
  = let '(r, (evs, tmo, b)) :=
      serve_effect self env file_path responsecode http_version
                   (sock_timeout w) (budget w) in
    (r, after w evs tmo b).
Proof.
  unfold serve_effect. cbv zeta.
  destruct (FS.lookup (fs env) file_path) as [[[|] content|r sz]|] eqn:Hlook.
  - rewrite (@serve_file_open_ok self env file_path responsecode http_version content
               w Hlook).
    cbv zeta. destruct (budget w) as [|b]; [reflexivity|].
    destruct (_ <=? b); reflexivity.
  - apply serve_file_open_fails. unfold open_error. now rewrite Hlook.
  - apply serve_file_open_fails. unfold open_error. now rewrite Hlook.
  - apply serve_file_open_fails. unfold open_error. now rewrite Hlook.
Qed.

(** the events after [serve_file]: the drain delay of HTTP/1.0 on the OK
    path, the closing of the socket, and the log of what escaped *)
Definition closing_events (pl : Plan) (r : Exn + unit) : list Event :=
  match r with
  | inl e => [SockClose; PrintExn "Server error: " e]
  | inr _ =>
      match outcome pl with
      | OK => if String.eqb (version pl) "HTTP/1.0"
              then [Sleep 2; Print "Connection closed for HTTP/1.0"; SockClose]
              else [SockClose]
      | _ => [SockClose]
      end
  end.

(** The trace of a run, in closed form. *)
Lemma trace_effect (self : HttpServer.t) (env : Env) (visited_url : string)
      (budget : nat) (clients : list string) :
  let pl := plan self env visited_url in
  let '(r, (evs, _, _)) :=
    serve_effect self env (file pl) (status_line (outcome pl)) (version pl)
                 None budget in
  trace self env visited_url budget clients
  = (pre pl ++ evs ++ closing_events pl r)%list.
Proof.
  cbv zeta. unfold trace. rewrite run_finish, run_body_plan. cbv zeta.
  set (pl := plan self env visited_url).
  rewrite serve_file_effect.
  cbn [sock_timeout Py.budget after accepted events open_files sock_open
       connected_clients app].
  destruct (serve_effect self env (file pl) (status_line (outcome pl)) (version pl)
                         None budget) as [r [[evs tmo] b]].
  unfold closing_events.
  destruct r as [e|[]].
  - cbn. now rewrite <- !app_assoc.
  - destruct (outcome pl); try (cbn; now rewrite <- !app_assoc).
    destruct (String.eqb (version pl) "HTTP/1.0"); cbn; now rewrite <- !app_assoc.
Qed.

(** ** The three answers to a well-formed GET *)

(** the plan for a line whose method is GET and whose extension is
    supported *)
Lemma plan_accepted (self : HttpServer.t) (env : Env) (visited_url : string) :
  2 <= List.length (PyStr.split " " visited_url) ->
  PyStr.upper (parsed_method visited_url) = "GET" ->
  is_file_supported (parsed_target visited_url) = true ->
  plan self env visited_url
  = let t := parsed_target visited_url in
    let dbg := debug_events self ("file_name " ++ t) in
    match get_file_path (fs env) self t with
    | None =>
        mkPlan (dbg ++ [Call_get_file_path t;
                        Print ("HTTP 404 Error: " ++ t ++ " cannot be found!")])
               NotFound FILE_NOT_FOUND "HTTP/1.1"
    | Some p =>
        if FS.access_R_OK (fs env) p
        then mkPlan (dbg ++ Call_get_file_path t
                         :: debug_events self
                              ("Current thread name is " ++ thread_name env
                               ++ " and file opened " ++ p))
                    OK p ("HTTP/" ++ protocol self)
        else mkPlan (dbg ++ [Call_get_file_path t;
                             Print ("HTTP 403 Error: " ++ t
                                    ++ " Forbidden (No permission)")])
                    Forbidden FORBIDDEN "HTTP/1.1"
    end.
Proof.
  intros Hlen HG Hsup. unfold plan, plan_dispatch.
  destruct (Nat.ltb_spec (List.length (PyStr.split " " visited_url)) 2); [lia|].
  rewrite HG, Hsup. cbn [String.eqb Ascii.eqb Bool.eqb negb orb]. cbv zeta.
  destruct (get_file_path _ _ _); [|reflexivity].
  destruct (FS.access_R_OK _ _); reflexivity.
Qed.

(** X6: a GET for a target with a supported extension resolves the
    target once and answers by the state of the file: NotFound with the
    asset of 404 when the resolver finds nothing, Forbidden with the asset
    of 403 when the path exists and is not readable, and the OK path for
    the resolved path with the configured protocol otherwise; each error
    is logged with the decoded target. *)
Theorem get_is_answered_by_the_state_of_the_file (self : HttpServer.t) (env : Env)
        (visited_url : string) (budget : nat) (clients : list string) :
  2 <= List.length (PyStr.split " " visited_url) ->
  PyStr.upper (parsed_method visited_url) = "GET" ->
  is_file_supported (parsed_target visited_url) = true ->
  let t := parsed_target visited_url in
  let tr := trace self env visited_url budget clients in
  In (Call_get_file_path t) tr
  /\ match get_file_path (fs env) self t with
     | None =>
         outcomes tr = [NotFound]
         /\ In (Print ("HTTP 404 Error: " ++ t ++ " cannot be found!")) tr
         /\ In (Call_serve_file "error/404.html" "404 FileNotFound" "HTTP/1.1") tr
     | Some p =>
         if FS.access_R_OK (fs env) p
         then outcomes tr = [OK]
              /\ In (Call_serve_file p "200 OK" ("HTTP/" ++ protocol self)) tr
         else outcomes tr = [Forbidden]
              /\ In (Print ("HTTP 403 Error: " ++ t ++ " Forbidden (No permission)")) tr
              /\ In (Call_serve_file "error/403.html" "403 Forbidden" "HTTP/1.1") tr
     end.
Proof.
  intros Hlen HG Hsup t tr.
  pose proof (outcomes_trace self env visited_url budget clients) as Hos.
  destruct (run_trace self env visited_url budget clients)
    as (evs & post & Htr & _).
  cbv zeta in Htr. fold tr in Hos, Htr.
  rewrite (plan_accepted self env visited_url Hlen HG Hsup) in Hos, Htr.
  cbv zeta in Hos, Htr. fold t in Hos, Htr.
  destruct (get_file_path (fs env) self t) as [p|];
    [destruct (FS.access_R_OK (fs env) p)|];
    cbn [pre outcome file version status_line] in Hos, Htr; rewrite Htr;
    (split; [apply in_or_app; left; apply in_or_app; right; now left|]).
  - split; [now rewrite <- Htr|]. apply in_or_app. right. now left.
  - split; [now rewrite <- Htr|]. split.
    + apply in_or_app. left. apply in_or_app. right. right. now left.
    + apply in_or_app. right. now left.
  - split; [now rewrite <- Htr|]. split.
    + apply in_or_app. left. apply in_or_app. right. right. now left.
    + apply in_or_app. right. now left.
Qed.

Lemma get_is_answered_by_the_state_of_the_file_witness :
  2 <= List.length (PyStr.split " " ("get /secret.txt HTTP/1.1" ++ LF))
  /\ PyStr.upper (parsed_method ("get /secret.txt HTTP/1.1" ++ LF)) = "GET"
  /\ is_file_supported (parsed_target ("get /secret.txt HTTP/1.1" ++ LF)) = true
  /\ outcomes (trace demo_11 demo_env ("get /secret.txt HTTP/1.1" ++ LF) 8 [])
     = [Forbidden].
Proof.
  assert (H1 : 2 <= List.length (PyStr.split " " ("get /secret.txt HTTP/1.1" ++ LF)))
    by (vm_compute; lia).
  assert (H2 : PyStr.upper (parsed_method ("get /secret.txt HTTP/1.1" ++ LF)) = "GET")
    by (vm_compute; reflexivity).
  assert (H3 : is_file_supported (parsed_target ("get /secret.txt HTTP/1.1" ++ LF)) = true)
    by (vm_compute; reflexivity).
  pose proof (@get_is_answered_by_the_state_of_the_file demo_11 demo_env
                ("get /secret.txt HTTP/1.1" ++ LF) 8 [] H1 H2 H3) as [_ H].
  cbv zeta in H.
  replace (get_file_path (fs demo_env) demo_11
                         (parsed_target ("get /secret.txt HTTP/1.1" ++ LF)))
    with (Some "/srv/secret.txt") in H by (vm_compute; reflexivity).
  replace (FS.access_R_OK (fs demo_env) "/srv/secret.txt") with false in H
    by (vm_compute; reflexivity).
  exact (conj H1 (conj H2 (conj H3 (proj1 H)))).
Defined.

(** X7: a GET whose target resolves to a readable directory (the
    document root itself, for one) gets no response at all: the OK path is
    taken, [open] fails on the directory, nothing is written, there is no
    error page and no drain delay, and the run ends with the two logs and
    the closing of the socket. *)
Theorem directory_request_gets_no_response (self : HttpServer.t) (env : Env)
        (visited_url : string) (budget : nat) (clients : list string)
        (p : string) (sz : nat) :
  2 <= List.length (PyStr.split " " visited_url) ->
  PyStr.upper (parsed_method visited_url) = "GET" ->
  is_file_supported (parsed_target visited_url) = true ->
  get_file_path (fs env) self (parsed_target visited_url) = Some p ->
  FS.lookup (fs env) p = Some (FS.Dir true sz) ->
  let tr := trace self env visited_url budget clients in
  written tr = []
  /\ outcomes tr = [OK]
  /\ exists before,
       Forall pre_event before
       /\ tr = (before
                ++ [Call_serve_file p "200 OK" ("HTTP/" ++ protocol self);
                    PrintExn "Error serving file: " (IsADirectoryError p);
                    SockClose;
                    PrintExn "Server error: " (UnboundLocalError "error_file")])%list.
Proof.
  intros Hlen HG Hsup Hpath Hlook tr.
  pose proof (Forall_pre_plan self env visited_url) as Hpre.
  pose proof (outcomes_trace self env visited_url budget clients) as Hos.
  pose proof (trace_effect self env visited_url budget clients) as Htr.
  cbv zeta in Htr. fold tr in Hos, Htr.
  rewrite (plan_accepted self env visited_url Hlen HG Hsup) in Hos, Htr, Hpre.
  cbv zeta in Hos, Htr, Hpre. rewrite Hpath in Hos, Htr, Hpre.
  assert (Hacc : FS.access_R_OK (fs env) p = true)
    by (unfold FS.access_R_OK; now rewrite Hlook).
  rewrite Hacc in Hos, Htr, Hpre.
  cbn [pre outcome file version status_line] in Hos, Htr, Hpre.
  unfold serve_effect in Htr. rewrite Hlook in Htr.
  cbn [closing_events app] in Htr.
  split; [|split; [exact Hos | eexists; split; [exact Hpre | exact Htr]]].
  rewrite Htr, written_app, (written_serve_pre Hpre). reflexivity.
Qed.

Lemma directory_request_gets_no_response_witness :
  2 <= List.length (PyStr.split " " ("GET /. HTTP/1.0" ++ LF))
  /\ get_file_path (fs demo_env) demo_10 (parsed_target ("GET /. HTTP/1.0" ++ LF))
     = Some "/srv"
  /\ FS.lookup (fs demo_env) "/srv" = Some (FS.Dir true 4096)
  /\ written (trace demo_10 demo_env ("GET /. HTTP/1.0" ++ LF) 8 []) = [].
Proof.
  assert (H1 : 2 <= List.length (PyStr.split " " ("GET /. HTTP/1.0" ++ LF)))
    by (vm_compute; lia).
  assert (H2 : PyStr.upper (parsed_method ("GET /. HTTP/1.0" ++ LF)) = "GET")
    by (vm_compute; reflexivity).
  assert (H3 : is_file_supported (parsed_target ("GET /. HTTP/1.0" ++ LF)) = true)
    by (vm_compute; reflexivity).
  assert (H4 : get_file_path (fs demo_env) demo_10
                             (parsed_target ("GET /. HTTP/1.0" ++ LF)) = Some "/srv")
    by (vm_compute; reflexivity).
  assert (H5 : FS.lookup (fs demo_env) "/srv" = Some (FS.Dir true 4096))
    by (vm_compute; reflexivity).
  destruct (@directory_request_gets_no_response demo_10 demo_env
              ("GET /. HTTP/1.0" ++ LF) 8 [] "/srv" 4096 H1 H2 H3 H4 H5) as [Hw _].
  exact (conj H1 (conj H4 (conj H5 Hw))).
Defined.

(** ** A transport that stops taking writes *)

(** X8: when the peer takes only [budget] writes and that is not enough
    for the header block and every chunk, [serve_file] still returns: the
    writes that went out are the first [budget] of the header block and
    the chunks, in order, the error of the refused write is logged, the
    file is closed last, and no later write is tried. *)
Theorem serve_file_survives_a_refused_write (self : HttpServer.t) (env : Env)
        (file_path responsecode http_version : string) (content : list byte)
        (w : World) :
  FS.lookup (fs env) file_path = Some (FS.File true content) ->
  budget w <= List.length (chunks content) ->
  let w' := snd (serve_file self env file_path responsecode http_version w) in
  fst (serve_file self env file_path responsecode http_version w) = inr tt
  /\ open_files w' = open_files w
  /\ budget w' = 0
  /\ exists evs,
       added w w' (evs ++ [PrintExn "Error serving file: " BrokenPipeError;
                           Close file_path])
       /\ written evs
          = firstn (budget w)
                   (header_block env file_path responsecode http_version
                                 (List.length content) :: chunks content).
Proof.
  intros Hlook Hb w'. unfold w'.
  rewrite (@serve_file_open_ok self env file_path responsecode http_version content
             w Hlook).
  cbv zeta. destruct (budget w) as [|b].
  - cbn [fst snd after open_files Py.budget events].
    split; [reflexivity|]. split; [reflexivity|]. split; [reflexivity|].
    exists [Call_serve_file file_path responsecode http_version; Open file_path].
    split; reflexivity.
  - destruct (Nat.leb_spec (List.length (chunks content)) b) as [Hle|Hlt]; [lia|].
    cbn [fst snd after open_files Py.budget events].
    split; [reflexivity|]. split; [reflexivity|]. split; [reflexivity|].
    eexists ([_; _; _] ++ timeout_events self http_version ++ map Write (firstn b _))%list.
    split.
    + unfold added. cbn [events after]. f_equal. cbn [app]. do 3 f_equal.
      now rewrite <- !app_assoc.
    + cbn [app written flat_map firstn]. f_equal.
      fold (written (timeout_events self http_version
                     ++ map Write (firstn b (chunks content)))).
      rewrite written_app, written_timeout_events. cbn [app].
      generalize (firstn b (chunks content)) as l.
      induction l as [|c l IH]; [reflexivity|].
      cbn [map written flat_map app]. f_equal. exact IH.
Qed.

Lemma serve_file_survives_a_refused_write_witness :
  FS.lookup (fs demo_big_env) "/srv/big.txt" = Some (FS.File true demo_big)
  /\ budget (accepted 2 []) <= List.length (chunks demo_big)
  /\ fst (serve_file demo_11 demo_big_env "/srv/big.txt" "200 OK" "HTTP/1.1"
                     (accepted 2 [])) = inr tt
  /\ map (@List.length byte)
         (written (events (snd (serve_file demo_11 demo_big_env "/srv/big.txt"
                                           "200 OK" "HTTP/1.1" (accepted 2 [])))))
     = [132; 4096].
Proof.
  assert (Hlook : FS.lookup (fs demo_big_env) "/srv/big.txt"
                  = Some (FS.File true demo_big)) by (vm_compute; reflexivity).
  assert (Hb : budget (accepted 2 []) <= List.length (chunks demo_big))
    by (vm_compute; lia).
  destruct (@serve_file_survives_a_refused_write demo_11 demo_big_env "/srv/big.txt"
              "200 OK" "HTTP/1.1" demo_big (accepted 2 []) Hlook Hb) as [Hret _].
  split; [exact Hlook|]. split; [exact Hb|]. split; [exact Hret|].
  vm_compute. reflexivity.
Defined.

(** ** HTTP/1.0 on the OK path *)

(** X9: a server configured for HTTP/1.0 that serves a file sets the
    idle timeout on the socket right after the header block and before
    the first body byte, and after the file is closed holds the
    connection for the delay of two seconds before the socket is closed,
    also when the peer refused part of the body. *)
Theorem http_1_0_sets_the_timeout_and_drains (self : HttpServer.t) (env : Env)
        (visited_url : string) (budget : nat) (clients : list string)
        (p : string) (content : list byte) :
  2 <= List.length (PyStr.split " " visited_url) ->
  PyStr.upper (parsed_method visited_url) = "GET" ->
  is_file_supported (parsed_target visited_url) = true ->
  get_file_path (fs env) self (parsed_target visited_url) = Some p ->
  FS.lookup (fs env) p = Some (FS.File true content) ->
  protocol self = "1.0" ->
  0 < budget ->
  exists before body,
    Forall pre_event before
    /\ Forall (fun e => match e with
                        | Write _ | PrintExn _ _ => True
                        | _ => False
                        end) body
    /\ trace self env visited_url budget clients
       = (before
          ++ [Call_serve_file p "200 OK" "HTTP/1.0"; Open p;
              Write (header_block env p "200 OK" "HTTP/1.0" (List.length content));
              SetTimeout (timeout self)]
          ++ body
          ++ [Close p; Sleep 2; Print "Connection closed for HTTP/1.0"; SockClose])%list.
Proof.
  intros Hlen HG Hsup Hpath Hlook Hproto Hb.
  pose proof (Forall_pre_plan self env visited_url) as Hpre.
  pose proof (trace_effect self env visited_url budget clients) as Htr.
  cbv zeta in Htr.
  rewrite (plan_accepted self env visited_url Hlen HG Hsup) in Htr, Hpre.
  cbv zeta in Htr, Hpre. rewrite Hpath in Htr, Hpre.
  assert (Hacc : FS.access_R_OK (fs env) p = true)
    by (unfold FS.access_R_OK; now rewrite Hlook).
  rewrite Hacc, Hproto in Htr, Hpre.
  cbn [pre outcome file version status_line append] in Htr, Hpre.
  unfold serve_effect in Htr. rewrite Hlook in Htr.
  destruct budget as [|b]; [lia|].
  assert (Hwrites : forall l, Forall (fun e => match e with
                                               | Write _ | PrintExn _ _ => True
                                               | _ => False
                                               end) (map Write l))
    by (induction l; constructor; auto).
  eexists. 
  destruct (List.length (chunks content) <=? b);
    cbn [closing_events outcome version String.eqb Ascii.eqb Bool.eqb] in Htr;
    unfold timeout_events in Htr;
    cbn [String.eqb Ascii.eqb Bool.eqb app] in Htr.
  - exists (map Write (chunks content)).
    split; [exact Hpre|]. split; [apply Hwrites|].
    rewrite Htr. cbn [app]. do 5 f_equal. now rewrite <- app_assoc.
  - exists (map Write (firstn b (chunks content))
            ++ [PrintExn "Error serving file: " BrokenPipeError])%list.
    split; [exact Hpre|].
    split; [apply Forall_app; split; [apply Hwrites | repeat constructor]|].
    rewrite Htr. cbn [app]. do 5 f_equal. now rewrite <- !app_assoc.
Qed.

Lemma http_1_0_sets_the_timeout_and_drains_witness :
  2 <= List.length (PyStr.split " " ("GET /a.txt HTTP/1.0" ++ LF))
  /\ protocol demo_10 = "1.0"
  /\ trace demo_10 demo_env ("GET /a.txt HTTP/1.0" ++ LF) 8 []
     = [ Call_get_file_path "/a.txt";
         Call_serve_file "/srv/a.txt" "200 OK" "HTTP/1.0";
         Open "/srv/a.txt";
         Write (header_block demo_env "/srv/a.txt" "200 OK" "HTTP/1.0" 5);
         SetTimeout 10;
         Write (list_byte_of_string "hello");
         Close "/srv/a.txt";
         Sleep 2;
         Print "Connection closed for HTTP/1.0";
         SockClose ].
Proof.
  assert (H1 : 2 <= List.length (PyStr.split " " ("GET /a.txt HTTP/1.0" ++ LF)))
    by (vm_compute; lia).
  assert (H2 : PyStr.upper (parsed_method ("GET /a.txt HTTP/1.0" ++ LF)) = "GET")
    by (vm_compute; reflexivity).
  assert (H3 : is_file_supported (parsed_target ("GET /a.txt HTTP/1.0" ++ LF)) = true)
    by (vm_compute; reflexivity).
  assert (H4 : get_file_path (fs demo_env) demo_10
                             (parsed_target ("GET /a.txt HTTP/1.0" ++ LF))
               = Some "/srv/a.txt") by (vm_compute; reflexivity).
  assert (H5 : FS.lookup (fs demo_env) "/srv/a.txt"
               = Some (FS.File true (list_byte_of_string "hello")))
    by (vm_compute; reflexivity).
  assert (H6 : protocol demo_10 = "1.0") by reflexivity.
  assert (H7 : 0 < 8) by lia.
  destruct (@http_1_0_sets_the_timeout_and_drains demo_10 demo_env
              ("GET /a.txt HTTP/1.0" ++ LF) 8 [] "/srv/a.txt" _ H1 H2 H3 H4 H5 H6 H7)
    as (before & body & _ & _ & _).
  split; [exact H1|]. split; [exact H6|]. vm_compute. reflexivity.
Defined.

(** ** The debug flag *)

(** the server with its [debug] attribute set to [b] *)
Definition with_debug (b : bool) (self : HttpServer.t) : HttpServer.t :=
  HttpServer.mk (document_root self) (protocol self) (timeout self) b.

(** the two lines [run] prints under [if self.debug:] *)
Definition is_debug_line (e : Event) : bool :=
  match e with
  | Print line =>
      String.prefix "file_name " line || String.prefix "Current thread name is " line
  | _ => false
  end.

Definition without_debug_lines (tr : list Event) : list Event :=
  filter (fun e => negb (is_debug_line e)) tr.

Lemma prefix_append (s t : string) : String.prefix s (s ++ t) = true.
Proof.
  induction s as [|a s IH]; cbn.
  - destruct t; reflexivity.
  - destruct (ascii_dec a a); [exact IH | congruence].
Qed.

Lemma without_debug_lines_app (l1 l2 : list Event) :
  without_debug_lines (l1 ++ l2)
  = (without_debug_lines l1 ++ without_debug_lines l2)%list.
Proof. apply filter_app. Qed.

Lemma without_debug_lines_id (l : list Event) :
  Forall (fun e => is_debug_line e = false) l -> without_debug_lines l = l.
Proof.
  induction 1 as [|e l He _ IH]; [reflexivity|].
  cbn. rewrite He. cbn. now f_equal.
Qed.

Lemma serve_effect_debug (b : bool) (self : HttpServer.t) (env : Env)
      (file_path responsecode http_version : string) (tmo : option nat) (n : nat) :
  serve_effect (with_debug b self) env file_path responsecode http_version tmo n
  = serve_effect self env file_path responsecode http_version tmo n.
Proof. reflexivity. Qed.

Lemma serve_effect_quiet (self : HttpServer.t) (env : Env)
      (file_path responsecode http_version : string) (tmo : option nat) (n : nat) :
  Forall (fun e => is_debug_line e = false)
         (fst (fst (snd (serve_effect self env file_path responsecode http_version
                                      tmo n)))).
Proof.
  assert (Hw : forall l, Forall (fun e => is_debug_line e = false) (map Write l))
    by (induction l; constructor; auto).
  assert (Ht : Forall (fun e => is_debug_line e = false)
                      (timeout_events self http_version))
    by (unfold timeout_events; destruct (String.eqb _ _); repeat constructor).
  unfold serve_effect. cbv zeta.
  destruct (FS.lookup (fs env) file_path) as [[[|] content|r sz]|];
    try (cbn [fst snd]; repeat constructor).
  destruct n as [|n]; [cbn [fst snd]; repeat constructor|].
  destruct (_ <=? n); cbn [fst snd app]; repeat constructor;
    repeat (apply Forall_app; split); auto; repeat constructor.
Qed.

Lemma closing_events_quiet (pl : Plan) (r : Exn + unit) :
  Forall (fun e => is_debug_line e = false) (closing_events pl r).
Proof.
  unfold closing_events.
  destruct r; [repeat constructor|].
  destruct (outcome pl); try (repeat constructor).
  destruct (String.eqb _ _); repeat constructor.
Qed.

(** the plan under the debug flag: the same outcome, file and version,
    and the same events up to the debug lines *)
Lemma plan_debug (self : HttpServer.t) (env : Env) (visited_url : string) :
  let loud := plan (with_debug true self) env visited_url in
  let quiet := plan (with_debug false self) env visited_url in
  outcome loud = outcome quiet
  /\ file loud = file quiet
  /\ version loud = version quiet
  /\ without_debug_lines (pre loud) = pre quiet.
Proof.
  cbv zeta. unfold plan, plan_dispatch.
  destruct (_ <? 2); [cbn; auto|].
  change (get_file_path (fs env) (with_debug true self))
    with (get_file_path (fs env) (with_debug false self)).
  unfold debug_events. cbn [debug with_debug protocol].
  destruct (negb _ || negb _); [cbn [pre outcome file version]|].
  - repeat split. cbn [app without_debug_lines filter is_debug_line].
    rewrite prefix_append. reflexivity.
  - destruct (get_file_path _ _ _) as [p|];
      [destruct (negb _)|]; cbn [pre outcome file version];
      (split; [reflexivity|]; split; [reflexivity|]; split; [reflexivity|]);
      cbn [app without_debug_lines filter is_debug_line];
      rewrite ?prefix_append; cbn [orb negb]; rewrite ?orb_true_r; reflexivity.
Qed.

(** X10: the debug flag only adds log lines: the trace of a run with
    [debug] set is the trace of the same run without it, with the debug
    lines in between; the outcome, every byte written and every other
    event are the same. *)
Theorem debug_only_adds_log_lines (self : HttpServer.t) (env : Env)
        (visited_url : string) (budget : nat) (clients : list string) :
  without_debug_lines (trace (with_debug true self) env visited_url budget clients)
  = trace (with_debug false self) env visited_url budget clients
  /\ written (trace (with_debug true self) env visited_url budget clients)
     = written (trace (with_debug false self) env visited_url budget clients)
  /\ outcomes (trace (with_debug true self) env visited_url budget clients)
     = outcomes (trace (with_debug false self) env visited_url budget clients).
Proof.
  pose proof (trace_effect (with_debug true self) env visited_url budget clients) as Hl.
  pose proof (trace_effect (with_debug false self) env visited_url budget clients) as Hq.
  destruct (plan_debug self env visited_url) as (Ho & Hf & Hv & Hpre).
  pose proof (Forall_pre_plan (with_debug true self) env visited_url) as Hprel.
  pose proof (Forall_pre_plan (with_debug false self) env visited_url) as Hpreq.
  cbv zeta in Hl, Hq.
  set (loud := plan (with_debug true self) env visited_url) in *.
  set (quiet := plan (with_debug false self) env visited_url) in *.
  rewrite serve_effect_debug in Hl, Hq. rewrite Ho, Hf, Hv in Hl.
  pose proof (serve_effect_quiet self env (file quiet) (status_line (outcome quiet))
                                 (version quiet) None budget) as Hevs.
  destruct (serve_effect self env (file quiet) (status_line (outcome quiet))
                         (version quiet) None budget) as [r [[evs tmo] b]].
  cbn [fst snd] in Hevs.
  assert (Hclose : closing_events loud r = closing_events quiet r)
    by (unfold closing_events; now rewrite Ho, Hv).
  rewrite Hclose in Hl.
  split; [|split].
  - rewrite Hl, Hq, !without_debug_lines_app, Hpre.
    now rewrite (without_debug_lines_id Hevs),
      (without_debug_lines_id (closing_events_quiet quiet r)).
  - rewrite Hl, Hq, !written_app.
    now rewrite (written_serve_pre Hprel), (written_serve_pre Hpreq).
  - rewrite !outcomes_trace. f_equal. exact Ho.
Qed.

(** ** The number of writes *)

Lemma chunks_length (data : list byte) :
  List.length (chunks data) = (List.length data + (chunk_size - 1)) / chunk_size.
Proof.
  pose proof chunk_size_pos as Hpos.
  induction data as [|d ds IH] using chunks_ind.
  - rewrite chunks_nil. cbn [List.length]. symmetry. apply Nat.div_small. lia.
  - rewrite chunks_cons. cbn [List.length]. rewrite IH, length_skipn.
    cbn [List.length].
    destruct (Nat.le_gt_cases chunk_size (S (List.length ds))) as [Hge|Hlt].
    + replace (S (List.length ds) + (chunk_size - 1))
        with ((S (List.length ds) - chunk_size + (chunk_size - 1)) + 1 * chunk_size)
        by lia.
      rewrite Nat.div_add by lia. lia.
    + replace (S (List.length ds) - chunk_size) with 0 by lia.
      replace (S (List.length ds) + (chunk_size - 1))
        with (List.length ds + 1 * chunk_size) by lia.
      rewrite Nat.div_add by lia.
      rewrite (Nat.div_small (0 + (chunk_size - 1))) by lia.
      rewrite (Nat.div_small (List.length ds)) by lia. lia.
Qed.

Lemma written_map_Write (cs : list (list byte)) : written (map Write cs) = cs.
Proof. induction cs as [|c cs IH]; [reflexivity|]. cbn. now f_equal. Qed.

(** X11: when the peer takes every write, [serve_file] makes one write
    for the header block and one for each started block of 4096 bytes of
    the file, [1 + ceil(N / 4096)] writes for [N] bytes, and uses up that
    much of the budget; for an empty file only the header block goes out,
    with a content length of zero. *)
Theorem serve_file_number_of_writes (self : HttpServer.t) (env : Env)
        (file_path responsecode http_version : string) (content : list byte)
        (w : World) :
  FS.lookup (fs env) file_path = Some (FS.File true content) ->
  (List.length content + 4095) / 4096 < budget w ->
  let w' := snd (serve_file self env file_path responsecode http_version w) in
  exists evs,
    added w w' evs
    /\ List.length (written evs) = 1 + (List.length content + 4095) / 4096
    /\ budget w' = budget w - (1 + (List.length content + 4095) / 4096)
    /\ (content = [] ->
        written evs = [header_block env file_path responsecode http_version 0]).
Proof.
  intros Hlook Hb w'. unfold w'.
  assert (Hn : (List.length content + 4095) / 4096 = List.length (chunks content)).
  { rewrite chunks_length. reflexivity. }
  rewrite Hn in *.
  rewrite (@serve_file_open_ok self env file_path responsecode http_version content
             w Hlook).
  cbv zeta. destruct (budget w) as [|b]; [lia|].
  destruct (Nat.leb_spec (List.length (chunks content)) b) as [_|Hlt]; [|lia].
  eexists. split; [reflexivity|].
  assert (Hw : written ([Call_serve_file file_path responsecode http_version;
                         Open file_path;
                         Write (header_block env file_path responsecode http_version
                                             (List.length content))]
                        ++ timeout_events self http_version
                        ++ map Write (chunks content) ++ [Close file_path])
               = header_block env file_path responsecode http_version
                              (List.length content) :: chunks content).
  { cbn [app written flat_map]. f_equal.
    fold (written (timeout_events self http_version
                   ++ map Write (chunks content) ++ [Close file_path])).
    rewrite !written_app, written_timeout_events, written_map_Write.
    cbn [app written flat_map]. now rewrite app_nil_r. }
  rewrite Hw. cbn [List.length snd after Py.budget].
  split; [reflexivity|]. split; [lia|].
  intros ->. rewrite chunks_nil. reflexivity.
Qed.

Lemma serve_file_number_of_writes_witness :
  FS.lookup (fs demo_big_env) "/srv/big.txt" = Some (FS.File true demo_big)
  /\ (List.length demo_big + 4095) / 4096 < budget (accepted 8 [])
  /\ budget (snd (serve_file demo_11 demo_big_env "/srv/big.txt" "200 OK" "HTTP/1.1"
                             (accepted 8 []))) = 4.
Proof.
  assert (Hlook : FS.lookup (fs demo_big_env) "/srv/big.txt"
                  = Some (FS.File true demo_big)) by (vm_compute; reflexivity).
  assert (Hb : (List.length demo_big + 4095) / 4096 < budget (accepted 8 []))
    by (vm_compute; lia).
  destruct (@serve_file_number_of_writes demo_11 demo_big_env "/srv/big.txt" "200 OK"
              "HTTP/1.1" demo_big (accepted 8 []) Hlook Hb) as (evs & _ & _ & Hbud & _).
  split; [exact Hlook|]. split; [exact Hb|].
  rewrite Hbud. vm_compute. reflexivity.
Defined.

(** ** The extension of a path *)

Lemma lacks_app (c : ascii) (a b : string) :
  lacks c (a ++ b) = lacks c a && lacks c b.
Proof.
  induction a as [|x a IH]; cbn; [reflexivity|].
  rewrite IH. now rewrite andb_assoc.
Qed.

Lemma length_append (a b : string) :
  String.length (a ++ b) = String.length a + String.length b.
Proof. induction a as [|x a IH]; cbn; [reflexivity | now rewrite IH]. Qed.



(** [rfind] finds the last occurrence, or returns the default *)
Lemma rfind_from_spec (c : ascii) (s : string) (i found : Z) :
  (lacks c s = true /\ PyStr.rfind_from c s i found = found)
  \/ exists a b, s = a ++ String c b /\ lacks c b = true
                 /\ PyStr.rfind_from c s i found = (i + Z.of_nat (String.length a))%Z.
Proof.
  revert i found. induction s as [|x s IH]; intros i found; cbn [lacks PyStr.rfind_from].
  - now left.
  - destruct (IH (i + 1)%Z (if Ascii.eqb x c then i else found))
      as [[Hl Hr]|(a & b & -> & Hb & Hr)].
    + rewrite Hr, Hl. destruct (Ascii.eqb_spec x c) as [->|Hne]; cbn [negb andb].
      * right. exists "", s. cbn. repeat split; auto. lia.
      * now left.
    + right. exists (String x a), b. cbn [append String.length].
      split; [reflexivity|]. split; [assumption|]. rewrite Hr. lia.
Qed.










(** ** Start-up *)

(** The checks of the main program on the parsed arguments, in their
    order: the message of the error raised, or the listening instance
    [HttpServer(None, document_root, protocol, debug)] with the default
    timeout of [__init__]. *)
Definition main_checks (fs : FS.t) (document_root : string) (port : Z)
           (protocol : string) (debug : bool) : string + HttpServer.t :=
  if negb ((8000 <=? port)%Z && (port <=? 9999)%Z)
  then inl "Port number must be between 8000 and 9999"
  else if negb (FS.path_exists fs document_root)
  then inl ("Document root " ++ document_root ++ " does not exist")
  else if negb (existsb (String.eqb protocol) ["1.1"; "1.0"])
  then inl "Protocol should be either 1.1 or 1.0"
  else inr (HttpServer.mk document_root protocol 10 debug).

(** The instance [start] builds for an accepted connection:
    [HttpServer(client_socket, self.document_root, self.protocol,
    self.debug)], again with the default timeout. *)
Definition handler_for (server : HttpServer.t) : HttpServer.t :=
  HttpServer.mk (document_root server) (protocol server) 10 (debug server).

Lemma serve_effect_timeouts (self : HttpServer.t) (env : Env)
      (file_path responsecode http_version : string) (tmo : option nat) (n : nat) :
  Forall (fun e => match e with
                   | SetTimeout k => k = timeout self /\ http_version = "HTTP/1.0"
                   | _ => True
                   end)
         (fst (fst (snd (serve_effect self env file_path responsecode http_version
                                      tmo n)))).
Proof.
  assert (Hw : forall l, Forall (fun e => match e with
                                          | SetTimeout k =>
                                              k = timeout self /\ http_version = "HTTP/1.0"
                                          | _ => True
                                          end) (map Write l))
    by (induction l; constructor; auto).
  assert (Ht : Forall (fun e => match e with
                                | SetTimeout k =>
                                    k = timeout self /\ http_version = "HTTP/1.0"
                                | _ => True
                                end) (timeout_events self http_version)).
  { unfold timeout_events. destruct (String.eqb_spec http_version "HTTP/1.0");
      repeat constructor; auto. }
  unfold serve_effect. cbv zeta.
  destruct (FS.lookup (fs env) file_path) as [[[|] content|r sz]|];
    try (cbn [fst snd]; repeat constructor).
  destruct n as [|n]; [cbn [fst snd]; repeat constructor|].
  destruct (_ <=? n); cbn [fst snd app]; repeat constructor;
    repeat (apply Forall_app; split); auto; repeat constructor.
Qed.

(** X13: when the main program accepts its arguments, the port is
    between 8000 and 9999, the document root exists and the protocol is
    1.1 or 1.0; every response of a handler of that server then starts
    with a status line in HTTP/1.1 or HTTP/1.0, and the idle timeout, when
    it is set at all, is set to 10 seconds by a server started with
    protocol 1.0. *)
Theorem started_server_answers_in_HTTP_1_x (fs : FS.t) (document_root : string)
        (port : Z) (protocol : string) (debug : bool) (server : HttpServer.t) :
  main_checks fs document_root port protocol debug = inr server ->
  (8000 <= port <= 9999)%Z
  /\ FS.path_exists fs document_root = true
  /\ (protocol = "1.1" \/ protocol = "1.0")
  /\ forall env visited_url budget clients,
       let tr := trace (handler_for server) env visited_url budget clients in
       (forall d rest, written tr = d :: rest ->
          exists text,
            d = list_byte_of_string ("HTTP/1.1 " ++ text)
            \/ d = list_byte_of_string ("HTTP/1.0 " ++ text))
       /\ (forall n, In (SetTimeout n) tr -> n = 10 /\ protocol = "1.0").
Proof.
  unfold main_checks.
  destruct ((8000 <=? port)%Z && (port <=? 9999)%Z) eqn:Hport; [|discriminate].
  destruct (FS.path_exists fs document_root) eqn:Hroot; [|discriminate].
  destruct (existsb (String.eqb protocol) ["1.1"; "1.0"]) eqn:Hproto; [|discriminate].
  cbn [negb]. intros [= <-].
  apply andb_prop in Hport. destruct Hport as [Hlo Hhi].
  apply Z.leb_le in Hlo. apply Z.leb_le in Hhi.
  assert (Hp : protocol = "1.1" \/ protocol = "1.0").
  { cbn in Hproto. apply orb_prop in Hproto. destruct Hproto as [H|H].
    - left. now apply String.eqb_eq.
    - rewrite orb_false_r in H. right. now apply String.eqb_eq. }
  split; [lia|]. split; [reflexivity|]. split; [exact Hp|].
  intros env visited_url budget clients.
  set (self := handler_for (HttpServer.mk document_root protocol 10 debug)) in *.
  set (tr := trace self env visited_url budget clients).
  pose proof (Forall_pre_plan self env visited_url) as Hpre.
  assert (Hver : version (plan self env visited_url) = "HTTP/1.1"
                 \/ version (plan self env visited_url) = "HTTP/" ++ protocol).
  { destruct (outcome (plan self env visited_url)) eqn:Ho.
    - right. now destruct (plan_OK self env visited_url Ho).
    - left. apply plan_error. rewrite Ho. discriminate.
    - left. apply plan_error. rewrite Ho. discriminate.
    - left. apply plan_error. rewrite Ho. discriminate.
    - left. apply plan_error. rewrite Ho. discriminate. }
  split.
  - destruct (run_trace self env visited_url budget clients)
      as (evs & post & Htr & _ & Hhdr & Hpost).
    cbv zeta in Htr, Hhdr. fold tr in Htr.
    intros d rest Hw. rewrite Htr in Hw.
    rewrite written_app, (written_serve_pre Hpre) in Hw.
    cbn [app written flat_map] in Hw. fold (written (evs ++ post)) in Hw.
    rewrite written_app, (written_post Hpost), app_nil_r in Hw.
    rewrite Hw in Hhdr. destruct Hhdr as [size ->].
    rewrite header_block_text.
    destruct Hver as [Hv|Hv]; rewrite Hv; [eexists; left; reflexivity|].
    destruct Hp as [Hp|Hp]; rewrite Hp; eexists; [left | right]; reflexivity.
  - pose proof (trace_effect self env visited_url budget clients) as Htr.
    cbv zeta in Htr. fold tr in Htr.
    pose proof (serve_effect_timeouts self env (file (plan self env visited_url))
                  (status_line (outcome (plan self env visited_url)))
                  (version (plan self env visited_url)) None budget) as Hevs.
    destruct (serve_effect self env _ _ _ None budget) as [r [[evs tmo] b]].
    cbn [fst snd] in Hevs.
    intros n Hin. rewrite Htr in Hin.
    rewrite Forall_forall in Hpre, Hevs.
    apply in_app_or in Hin. destruct Hin as [Hin|Hin];
      [apply Hpre in Hin; contradiction|].
    apply in_app_or in Hin. destruct Hin as [Hin|Hin].
    + apply Hevs in Hin. destruct Hin as [-> Hv]. split; [reflexivity|].
      destruct Hver as [Hv1|Hv1]; rewrite Hv1 in Hv; [discriminate|].
      now injection Hv.
    + exfalso. unfold closing_events in Hin.
      destruct r; [|destruct (outcome _); try destruct (String.eqb _ _)];
        cbn in Hin; intuition discriminate.
Qed.

Lemma started_server_answers_in_HTTP_1_x_witness :
  main_checks demo_fs "/srv" 8080 "1.0" false = inr demo_10
  /\ handler_for demo_10 = demo_10
  /\ (8000 <= 8080 <= 9999)%Z
  /\ main_checks demo_fs "/srv" 80 "1.0" false
     = inl "Port number must be between 8000 and 9999"
  /\ main_checks demo_fs "/var/www" 8080 "2" false
     = inl "Document root /var/www does not exist".
Proof.
  assert (H : main_checks demo_fs "/srv" 8080 "1.0" false = inr demo_10)
    by (vm_compute; reflexivity).
  destruct (@started_server_answers_in_HTTP_1_x demo_fs "/srv" 8080 "1.0" false
              demo_10 H) as (Hport & _).
  split; [exact H|]. split; [reflexivity|]. split; [exact Hport|].
  split; vm_compute; reflexivity.
Defined.

(** ** Percent-decoding of the target *)

Lemma unquote_without_percent (s : string) :
  lacks "%" s = true -> PyStr.unquote s = s.
Proof.
  induction s as [|c s IH]; [reflexivity|].
  cbn [lacks PyStr.unquote]. intros H. apply andb_prop in H. destruct H as [Hc Hs].
  apply negb_true_iff in Hc. rewrite Hc. now rewrite (IH Hs).
Qed.

(** X14: the target is decoded before anything is decided on it: two
    request lines that differ only in targets with the same decoding are
    handled in the same way, so an escaped spelling of a path is checked,
    resolved and served as the path itself; a target without a percent
    sign is taken as it stands. *)
Theorem targets_are_handled_by_their_decoding (self : HttpServer.t) (env : Env)
        (m t1 t2 rest : string) (w : World) :
  lacks " " m = true -> lacks " " t1 = true -> lacks " " t2 = true ->
  PyStr.unquote t1 = PyStr.unquote t2 ->
  run self env (m ++ " " ++ t1 ++ " " ++ rest) w
  = run self env (m ++ " " ++ t2 ++ " " ++ rest) w
  /\ parsed_target (m ++ " " ++ t1 ++ " " ++ rest) = PyStr.unquote t1
  /\ (lacks "%" t1 = true -> parsed_target (m ++ " " ++ t1 ++ " " ++ rest) = t1).
Proof.
  intros Hm H1 H2 Hu.
  assert (Hs : forall t, lacks " " t = true ->
             PyStr.split " " (m ++ " " ++ t ++ " " ++ rest)
             = m :: t :: PyStr.split " " rest).
  { intros t Ht.
    change (m ++ " " ++ t ++ " " ++ rest) with (m ++ String " " (t ++ String " " rest)).
    now rewrite !split_app. }
  assert (Hbody : forall t, lacks " " t = true ->
             run_body self env (m ++ " " ++ t ++ " " ++ rest)
             = dispatch self env m (PyStr.unquote t)).
  { intros t Ht. unfold run_body. rewrite (Hs t Ht). reflexivity. }
  split; [|split].
  - rewrite !run_finish, (Hbody t1 H1), (Hbody t2 H2), Hu. reflexivity.
  - unfold parsed_target. rewrite (Hs t1 H1). reflexivity.
  - intros Hp. unfold parsed_target. rewrite (Hs t1 H1). cbn [nth].
    now apply unquote_without_percent.
Qed.

Lemma targets_are_handled_by_their_decoding_witness :
  lacks " " "GET" = true
  /\ lacks " " "/%2e%2E/etc/passwd" = true
  /\ lacks " " "/../etc/passwd" = true
  /\ PyStr.unquote "/%2e%2E/etc/passwd" = PyStr.unquote "/../etc/passwd"
  /\ In (Call_serve_file "/etc/passwd" "200 OK" "HTTP/1.1")
        (events (snd (run demo_11 demo_env
                          ("GET" ++ " " ++ "/%2e%2E/etc/passwd" ++ " " ++ ("HTTP/1.1" ++ LF))
                          (accepted 8 [])))).
Proof.
  assert (Hu : PyStr.unquote "/%2e%2E/etc/passwd" = PyStr.unquote "/../etc/passwd")
    by (vm_compute; reflexivity).
  destruct (@targets_are_handled_by_their_decoding demo_11 demo_env "GET"
              "/%2e%2E/etc/passwd" "/../etc/passwd" ("HTTP/1.1" ++ LF) (accepted 8 [])
              eq_refl eq_refl eq_refl Hu) as [Hrun _].
  split; [reflexivity|]. split; [reflexivity|]. split; [reflexivity|].
  split; [exact Hu|].
  rewrite Hrun. vm_compute. auto.
Defined.

(** ** Names without an extension *)

Lemma rfind_from_lacks (c : ascii) (s : string) (i found : Z) :
  lacks c s = true -> PyStr.rfind_from c s i found = found.
Proof.
  intros H. destruct (rfind_from_spec c s i found) as [[_ Hr]|(a & b & -> & _ & _)];
    [exact Hr|].
  rewrite lacks_app in H. cbn [lacks] in H. rewrite Ascii.eqb_refl in H.
  cbn in H. rewrite andb_false_r in H. discriminate.
Qed.

(** the index of an occurrence after which there is no other *)
Lemma rfind_from_last (c : ascii) (x y : string) (i found : Z) :
  lacks c y = true ->
  PyStr.rfind_from c (x ++ String c y) i found = (i + Z.of_nat (String.length x))%Z.
Proof.
  intros Hy. revert i found. induction x as [|a x IH]; intros i found.
  - cbn [append PyStr.rfind_from String.length]. rewrite Ascii.eqb_refl.
    rewrite (rfind_from_lacks _ _ _ _ Hy). lia.
  - cbn [append PyStr.rfind_from String.length]. rewrite IH. lia.
Qed.

(** a tail without the character does not move the index *)
Lemma rfind_from_app_lacks (c : ascii) (x y : string) (i found : Z) :
  lacks c y = true ->
  PyStr.rfind_from c (x ++ y) i found = PyStr.rfind_from c x i found.
Proof.
  intros Hy. revert i found. induction x as [|a x IH]; intros i found.
  - cbn [append PyStr.rfind_from]. now apply rfind_from_lacks.
  - cbn [append PyStr.rfind_from]. apply IH.
Qed.

Lemma rfind_from_lt (c : ascii) (s : string) (i found : Z) :
  (found < i)%Z ->
  (PyStr.rfind_from c s i found < i + Z.of_nat (String.length s))%Z
  \/ s = "".
Proof.
  revert i found. induction s as [|a s IH]; intros i found Hf; [now right|].
  left. cbn [PyStr.rfind_from String.length].
  destruct (IH (i + 1)%Z (if Ascii.eqb a c then i else found)) as [H|Hs].
  - destruct (Ascii.eqb a c); lia.
  - lia.
  - subst s. cbn [PyStr.rfind_from String.length]. destruct (Ascii.eqb a c); lia.
Qed.

(** X15: a path whose last component holds no dot has no extension and
    is supported, whatever dots its directories hold; and so is a hidden
    file, a last component that starts with its only dot: the type check
    lets names such as [Makefile] and [.htaccess] through. *)
Theorem names_without_extension_are_supported (dir name : string) :
  lacks "/" name = true -> lacks "." name = true ->
  PosixPath.splitext (dir ++ "/" ++ name) = (dir ++ "/" ++ name, "")
  /\ is_file_supported (dir ++ "/" ++ name) = true
  /\ PosixPath.splitext (dir ++ "/." ++ name) = (dir ++ "/." ++ name, "")
  /\ is_file_supported (dir ++ "/." ++ name) = true.
Proof.
  intros Hs Hd.
  assert (Ha : PosixPath.splitext (dir ++ "/" ++ name) = (dir ++ "/" ++ name, "")).
  { change (dir ++ "/" ++ name) with (dir ++ String "/" name).
    unfold PosixPath.splitext, PyStr.rfind.
    change PosixPath.sep with "/"%char.
    rewrite (@rfind_from_last "/" dir name 0%Z (-1)%Z Hs).
    assert (Hl : lacks "." (String "/" name) = true) by exact Hd.
    rewrite (@rfind_from_app_lacks "." dir (String "/" name) 0%Z (-1)%Z Hl).
    assert (Hlt : (PyStr.rfind_from "." dir 0 (-1) < 0 + Z.of_nat (String.length dir))%Z).
    { assert (Hneg : (-1 < 0)%Z) by lia.
      destruct (@rfind_from_lt "." dir 0%Z (-1)%Z Hneg) as [H|H]; [exact H|].
      subst dir. cbn. lia. }
    destruct (Z.ltb_spec (0 + Z.of_nat (String.length dir))
                         (PyStr.rfind_from "." dir 0 (-1))); [lia|].
    reflexivity. }
  assert (Hb : PosixPath.splitext (dir ++ "/." ++ name) = (dir ++ "/." ++ name, "")).
  { change (dir ++ "/." ++ name) with (dir ++ String "/" (String "." name)).
    unfold PosixPath.splitext, PyStr.rfind.
    change PosixPath.sep with "/"%char.
    assert (Hl : lacks "/" (String "." name) = true) by exact Hs.
    rewrite (@rfind_from_last "/" dir (String "." name) 0%Z (-1)%Z Hl).
    replace (dir ++ String "/" (String "." name))
      with ((dir ++ "/") ++ String "." name)
      by (rewrite append_assoc; reflexivity).
    rewrite (@rfind_from_last "." (dir ++ "/") name 0%Z (-1)%Z Hd).
    rewrite length_append. cbn [String.length].
    replace (Z.to_nat (0 + Z.of_nat (String.length dir + 1)
                       - (0 + Z.of_nat (String.length dir) + 1))) with 0 by lia.
    cbn [PosixPath.has_non_dot]. now rewrite andb_false_r. }
  split; [exact Ha|]. split; [|split; [exact Hb|]].
  - unfold is_file_supported. rewrite Ha. reflexivity.
  - unfold is_file_supported. rewrite Hb. reflexivity.
Qed.

Lemma names_without_extension_are_supported_witness :
  lacks "/" "htaccess" = true /\ lacks "." "htaccess" = true
  /\ is_file_supported ("/site.d" ++ "/." ++ "htaccess") = true
  /\ is_file_supported ("/site.d" ++ "/" ++ "htaccess") = true.
Proof.
  destruct (@names_without_extension_are_supported "/site.d" "htaccess"
              eq_refl eq_refl) as (_ & Ha & _ & Hb).
  exact (conj eq_refl (conj eq_refl (conj Hb Ha))).
Defined.
